(** * Google Scholar scraper: the page loop, the error classifier and the
      record normaliser of [scholar_scraper.py]

    The Python class [GoogleScholarScraperSerpAPI] is embedded shallowly:
    - JSON-like data returned by the API is the inductive type [value];
      Python dicts are finite maps keyed by strings;
    - code that can raise returns a [result], whose [Raise] carries the
      exception class;
    - [search_articles] is a state machine over the program points of its
      two nested loops, run against a [World] that answers every fetch and
      every sleep from the history of the run;
    - the messages the program prints are left out: the runs described are
      those in which every [print] succeeds. *)

From Stdlib Require Import ZArith String Ascii List Floats.SpecFloat.
From stdpp Require Import base option gmap strings list pretty.

#[local] Set Warnings "-register-all".
#[local] Open Scope string_scope.
#[local] Open Scope nat_scope.
#[local] Open Scope list_scope.

(** ** Python values and exceptions *)

(** What [json] parsing yields: [None], booleans, integers, floats, strings,
    lists and dicts with string keys. *)
Inductive value : Type :=
| VNone
| VBool (b : bool)
| VInt (z : Z)
| VFloat (f : spec_float)
| VStr (s : string)
| VList (l : list value)
| VDict (d : gmap string value).

(** The exception classes the code distinguishes. [KeyboardInterrupt] is a
    [BaseException]: no [except Exception] clause catches it. *)
Inductive exn : Type :=
| KeyError
| ConnectionError
| AttributeError
| TypeError
| ValueError
| OtherException
| KeyboardInterrupt.

Inductive result (A : Type) : Type :=
| Ok (a : A)
| Raise (e : exn).
Arguments Ok {A} a.
Arguments Raise {A} e.

#[global] Instance result_ret : MRet result := fun A a => Ok a.
#[global] Instance result_bind : MBind result := fun A B f m =>
  match m with
  | Ok a => f a
  | Raise e => Raise e
  end.

Definition is_Ok {A} (r : result A) : Prop := exists a, r = Ok a.

(** The parts of the Python runtime that depend on Unicode tables or on the
    printing of floats and containers are an interface; everything else is
    defined below. *)
Class PyRuntime : Type := {
  str_lower : string -> string;          (* str.lower() *)
  str_strip : string -> string;          (* str.strip() *)
  repr_float : spec_float -> string;     (* str(x) for a float *)
  repr_container : value -> string       (* str(x) for a list or a dict *)
}.

(** Truth value of an object, as [if x] and [x and y] test it. *)
Definition truthy (v : value) : bool :=
  match v with
  | VNone => false
  | VBool b => b
  | VInt z => negb (z =? 0)%Z
  | VFloat (S754_zero _) => false
  | VFloat _ => true
  | VStr s => negb (String.eqb s "")
  | VList l => negb (bool_decide (l = []))
  | VDict d => negb (bool_decide (d = ∅))
  end.

(** [value.get(key, default)]: only dicts have the method. *)
Definition dict_get (v : value) (key : string) (dflt : value) : result value :=
  match v with
  | VDict d => Ok (default dflt (d !! key))
  | _ => Raise AttributeError
  end.

(** [needle in hay] on strings. *)
Fixpoint contains (needle hay : string) : bool :=
  String.prefix needle hay ||
  match hay with
  | EmptyString => false
  | String _ rest => contains needle rest
  end.

(** [sep.join(items)]: every item has to be a [str]. *)
Fixpoint all_str (items : list value) : result (list string) :=
  match items with
  | [] => Ok []
  | VStr s :: rest => strs ← all_str rest; Ok (s :: strs)
  | _ :: _ => Raise TypeError
  end.

Definition str_join (sep : string) (items : list value) : result string :=
  strs ← all_str items; Ok (String.concat sep strs).

Section Scraper.
Context `{PyRuntime}.

(** [str(x)]. *)
Definition py_str (v : value) : string :=
  match v with
  | VNone => "None"
  | VBool true => "True"
  | VBool false => "False"
  | VInt z => pretty z
  | VFloat f => repr_float f
  | VStr s => s
  | VList _ | VDict _ => repr_container v
  end.

(** [x.lower()]: a method of [str] only. *)
Definition lower (v : value) : result string :=
  match v with
  | VStr s => Ok (str_lower s)
  | _ => Raise AttributeError
  end.

(** ** [handle_api_error] *)

Inductive error_type : Type :=
| rate_limit
| access_denied
| captcha
| no_results
| generic_error
| processing_error
| empty_results.

(** Returns [(continue_scraping, error_type)]; [None] stands for Python's
    [None].  [page_num] only feeds the printed messages. *)
Definition handle_api_error (results : gmap string value) (page_num : nat)
  : result (bool * option error_type) :=
  if bool_decide (is_Some (results !! "error")) then
    let error_msg := default (VStr "Unknown error") (results !! "error") in
    msg ← lower error_msg;
    if contains "rate limit" msg || contains "too many requests" msg then
      Ok (false, Some rate_limit)
    else if contains "forbidden" msg || contains "unauthorized" msg then
      Ok (false, Some access_denied)
    else if contains "captcha" msg || contains "blocked" msg then
      Ok (true, Some captcha)
    else if contains "no results" msg || contains "hasn't returned" msg then
      Ok (false, Some no_results)
    else
      Ok (true, Some generic_error)
  else
    let search_metadata := default (VDict ∅) (results !! "search_metadata") in
    status ← dict_get search_metadata "status" (VStr "Unknown");
    if match status with VStr s => String.eqb s "Error" | _ => false end then
      Ok (true, Some processing_error)
    else
      let search_info := default (VDict ∅) (results !! "search_information") in
      results_state ← dict_get search_info "organic_results_state" (VStr "");
      state ← lower results_state;
      if contains "empty" state then Ok (false, Some empty_results)
      else Ok (true, None).

(** ** [safe_get_field] *)

(** [keys] is either a list of keys or a single key. *)
Inductive keys : Type :=
| KeyList (ks : list string)
| Key (k : string).

(** The [for key in keys: value = value.get(key, {})] loop. *)
Fixpoint walk (v : value) (ks : list string) : result value :=
  match ks with
  | [] => Ok v
  | key :: rest => v' ← dict_get v key (VDict ∅); walk v' rest
  end.

Definition safe_get_field (data : value) (ks : keys) (dflt : value) : result value :=
  let body :=
    match ks with
    | KeyList l => v ← walk data l; Ok (if truthy v then v else dflt)
    | Key k => dict_get data k dflt
    end in
  match body with
  | Raise AttributeError | Raise TypeError | Raise KeyError => Ok dflt
  | other => other
  end.

(** ** The record built for one article (lines 197-230) *)

Record record : Type := Row {
  title : value;
  authors : string;
  publication : value;
  year : value;
  cited_by : value;
  link : value
}.

(** The element an author entry contributes to the list handed to [join]. *)
Definition author_item (a : value) : value :=
  match a with
  | VDict d => default (VStr "Unknown") (d !! "name")
  | _ => VStr (py_str a)
  end.

(** Lines 201-209. *)
Definition extract_authors (pub_info : value) : result string :=
  authors_list ← dict_get pub_info "authors" (VList []);
  match authors_list with
  | VList l =>
      if truthy authors_list then str_join ", " (author_item <$> l)
      else Ok "N/A"
  | _ => Ok "N/A"
  end.

(** Lines 212-214. *)
Definition extract_cited_by (article : value) : result value :=
  inline_links ← dict_get article "inline_links" (VDict ∅);
  cited_by_info ← dict_get inline_links "cited_by" (VDict ∅);
  match cited_by_info with
  | VDict _ => dict_get cited_by_info "total" (VInt 0)
  | _ => Ok (VInt 0)
  end.

(** The body of [for article in results["organic_results"]], up to the
    dict that is appended. *)
Definition normalize (article : value) : result record :=
  title ← safe_get_field article (Key "title") (VStr "Untitled");
  pub_info ← dict_get article "publication_info" (VDict ∅);
  authors ← extract_authors pub_info;
  cited_by ← extract_cited_by article;
  link ← safe_get_field article (Key "link") (VStr "No URL available");
  publication ← safe_get_field pub_info (Key "summary") (VStr "N/A");
  year ← safe_get_field article (Key "year") (VStr "N/A");
  Ok (Row title authors publication year cited_by link).

(** ** The world [search_articles] runs in *)

(** The [params] dict given to [GoogleSearch]. *)
Record Params : Type := {
  engine : string;
  q : string;
  api_key : string;
  start : nat;
  num : nat
}.

(** The calls that leave the process, in the order they are made. *)
Inductive event : Type :=
| Fetch (p : Params)
| Sleep (secs : nat).

(** The remote service and the operator.  [get_dict] answers
    [GoogleSearch(params).get_dict()] with a response dict or an exception;
    [interrupted] tells whether a [KeyboardInterrupt] ends [time.sleep].
    Both may depend on everything that happened before. *)
Record World : Type := {
  get_dict : list event -> Params -> result (gmap string value);
  interrupted : list event -> nat -> bool
}.

(** [self.results], the local [consecutive_errors], and the calls made. *)
Record RunState : Type := {
  results : list record;
  consecutive_errors : nat;
  trace : list event
}.

Definition log (e : event) (s : RunState) : RunState :=
  {| results := results s;
     consecutive_errors := consecutive_errors s;
     trace := trace s ++ [e] |}.

Definition set_results (rows : list record) (s : RunState) : RunState :=
  {| results := rows;
     consecutive_errors := consecutive_errors s;
     trace := trace s |}.

Definition set_consecutive_errors (n : nat) (s : RunState) : RunState :=
  {| results := results s;
     consecutive_errors := n;
     trace := trace s |}.

(** [consecutive_errors += 1] *)
Definition bump (s : RunState) : RunState :=
  set_consecutive_errors (consecutive_errors s + 1) s.

(** Set in [__init__] and in [search_articles]. *)
Definition max_retries : nat := 3.
Definition retry_delay : nat := 5.
Definition max_consecutive_errors : nat := 3.

(** Why [search_articles] returned: the three messages it prints before
    a [return]. *)
Inductive stop_reason : Type :=
| Stopped (why : option error_type)   (* "Stopping scraper due to: ..." *)
| TooManyErrors                       (* "Too many consecutive errors" *)
| Completed.                          (* "Scraping completed!" *)

(** How one pass through the body of the [while] loop ends. *)
Inductive flow : Type :=
| Iterate (retry_count : nat) (page_success : bool) (s : RunState)
| Return (why : stop_reason) (s : RunState)
| Propagate (e : exn) (s : RunState).

(** The [for article in ...] loop: rows are appended to [self.results] one
    by one, so an exception leaves the rows appended before it. *)
Fixpoint collect (items : list value) (rows : list record)
  : list record * option exn :=
  match items with
  | [] => (rows, None)
  | article :: rest =>
      match normalize article with
      | Ok r => collect rest (rows ++ [r])
      | Raise e => (rows, Some e)
      end
  end.

Section Run.
Variable w : World.
Variable key : string.        (* self.api_key *)
Variable query : string.
Variable num_pages : nat.
Variable delay : nat.

(** The [params] of the request for [page]; [query] was stripped on
    entry. *)
Definition params (page : nat) : Params :=
  {| engine := "google_scholar";
     q := str_strip query;
     api_key := key;
     start := page * 10;
     num := 10 |}.

(** [time.sleep(secs)], then [k]. *)
Definition sleep (secs : nat) (s : RunState) (k : RunState -> flow) : flow :=
  if interrupted w (trace s) secs
  then Propagate KeyboardInterrupt (log (Sleep secs) s)
  else k (log (Sleep secs) s).

(** The three [except] clauses of lines 242-260.  [page_success] is still
    [False] whenever one of them runs. *)
Definition handle (e : exn) (retry_count : nat) (s : RunState) : flow :=
  match e with
  | KeyboardInterrupt => Propagate e s
  | KeyError =>
      let retry_count := retry_count + 1 in
      if retry_count <? max_retries
      then sleep retry_delay s (Iterate retry_count false)
      else Iterate retry_count false s
  | ConnectionError =>
      let retry_count := retry_count + 1 in
      if retry_count <? max_retries
      then sleep (retry_delay * retry_count) s (Iterate retry_count false)
      else Iterate retry_count false s
  | _ =>
      let retry_count := retry_count + 1 in
      if retry_count <? max_retries
      then sleep retry_delay s (Iterate retry_count false)
      else Iterate retry_count false s
  end.

(** Lines 193-240, after the classifier found no error. *)
Definition process_organic_results (results_ : gmap string value)
    (page retry_count : nat) (s : RunState) : flow :=
  let organic := default VNone (results_ !! "organic_results") in
  if bool_decide (is_Some (results_ !! "organic_results")) && truthy organic then
    match organic with
    | VList items =>
        let '(rows, err) := collect items (results s) in
        let s := set_results rows s in
        match err with
        | Some e => handle e retry_count s
        | None =>
            (* page_success = True *)
            if page <? num_pages - 1
            then sleep delay s (Iterate retry_count true)
            else Iterate retry_count true s
        end
    | VStr _ | VDict _ =>
        (* the loop yields characters or keys: [article.get] fails on the
           first of them, before anything is appended *)
        handle AttributeError retry_count s
    | _ =>
        (* not iterable *)
        handle TypeError retry_count s
    end
  else
    Iterate retry_count false (bump s).

(** One pass through the body of the [while] loop (lines 155-260). *)
Definition attempt (page retry_count : nat) (s0 : RunState) : flow :=
  let s := log (Fetch (params page)) s0 in
  match get_dict w (trace s0) (params page) with
  | Raise e => handle e retry_count s
  | Ok results_ =>
      match handle_api_error results_ (page + 1) with
      | Raise e => handle e retry_count s
      | Ok (continue_scraping, error_type) =>
          if negb continue_scraping then Return (Stopped error_type) s
          else
            match error_type with
            | Some _ =>
                let s := bump s in
                if max_consecutive_errors <=? consecutive_errors s
                then Return TooManyErrors s
                else
                  let retry_count := retry_count + 1 in
                  if retry_count <? max_retries
                  then sleep (retry_delay * retry_count) s
                         (Iterate retry_count false)
                  else Iterate retry_count false s
            | None =>
                process_organic_results results_ page retry_count
                  (set_consecutive_errors 0 s)
            end
      end
  end.

(** ** The loops as a state machine *)

(** [AtWhile]: about to test the condition of the [while] loop of [page].
    [Returned]: a [return] was executed; the data frame holds
    [results s].  [Uncaught]: an exception left [search_articles]. *)
Inductive config : Type :=
| AtWhile (page retry_count : nat) (page_success : bool) (s : RunState)
| Returned (why : stop_reason) (s : RunState)
| Uncaught (e : exn) (s : RunState).

(** The head of the [for] loop. *)
Definition for_next (page : nat) (s : RunState) : config :=
  if page <? num_pages then AtWhile page 0 false s
  else Returned Completed s.

Definition step (c : config) : config :=
  match c with
  | AtWhile page retry_count page_success s =>
      if (retry_count <? max_retries) && negb page_success then
        match attempt page retry_count s with
        | Iterate retry_count' page_success' s' =>
            AtWhile page retry_count' page_success' s'
        | Return why s' => Returned why s'
        | Propagate e s' => Uncaught e s'
        end
      else
        (* lines 262-265, then the next page *)
        for_next (page + 1) (if page_success then s else bump s)
  | _ => c
  end.

Fixpoint steps (n : nat) (c : config) : config :=
  match n with
  | O => c
  | S n' => steps n' (step c)
  end.

(** [self.results = []], [consecutive_errors = 0], nothing called yet. *)
Definition fresh : RunState :=
  {| results := []; consecutive_errors := 0; trace := [] |}.

Definition init : config := for_next 0 fresh.

Definition final (c : config) : option (result (list record)) :=
  match c with
  | AtWhile _ _ _ _ => None
  | Returned _ s => Some (Ok (results s))
  | Uncaught e _ => Some (Raise e)
  end.

Definition state_of (c : config) : RunState :=
  match c with
  | AtWhile _ _ _ s | Returned _ s | Uncaught _ s => s
  end.

Definition flow_state (f : flow) : RunState :=
  match f with
  | Iterate _ _ s | Return _ s | Propagate _ s => s
  end.


(** [search_articles(query, num_pages, delay)] on a scraper holding [key]:
    what the caller gets once the loops have ended, [None] while they are
    still running after [fuel] steps. *)
Definition search_articles (fuel : nat) : option (result (list record)) :=
  final (steps fuel init).

End Run.



End Scraper.

(** ** A runtime for ASCII text, used by the concrete runs below *)

Definition lower_ascii (c : ascii) : ascii :=
  let n := nat_of_ascii c in
  if (65 <=? n) && (n <=? 90) then ascii_of_nat (n + 32) else c.

Fixpoint lower_string (s : string) : string :=
  match s with
  | EmptyString => EmptyString
  | String c rest => String (lower_ascii c) (lower_string rest)
  end.

(** The ASCII characters [str.isspace] accepts: tab to carriage return,
    the four separators 28-31, and the space. *)
Definition is_space (c : ascii) : bool :=
  let n := nat_of_ascii c in
  ((9 <=? n) && (n <=? 13)) || ((28 <=? n) && (n <=? 32)).

Fixpoint lstrip (s : string) : string :=
  match s with
  | EmptyString => EmptyString
  | String c rest => if is_space c then lstrip rest else s
  end.

Fixpoint rstrip (s : string) : string :=
  match s with
  | EmptyString => EmptyString
  | String c rest =>
      match rstrip rest with
      | EmptyString => if is_space c then EmptyString else String c EmptyString
      | rest' => String c rest'
      end
  end.

(** [str_lower] and [str_strip] are Python's on ASCII strings.  The runs
    below never print a float or a container; both are rendered as a fixed
    marker. *)
Definition ascii_runtime : PyRuntime :=
  {| str_lower := lower_string;
     str_strip := fun s => rstrip (lstrip s);
     repr_float := fun _ => "<float>";
     repr_container := fun _ => "<container>" |}.

(** ** Progress of the loops *)

(** A pass that does not end the run either succeeds or uses up a retry. *)
Definition makes_progress (retry_count : nat) (f : flow) : Prop :=
  match f with
  | Iterate retry_count' page_success _ =>
      page_success = true \/ retry_count' = retry_count + 1
  | _ => True
  end.

Definition terminal (c : config) : Prop :=
  match c with
  | AtWhile _ _ _ _ => False
  | _ => True
  end.

(** ** Vocabulary of the specification *)

(** The tags that end the whole run (section 4.3 of the specification):
    RATE_LIMIT, ACCESS_DENIED, NO_RESULTS and EMPTY_RESULTS. *)
Definition stops_run (t : error_type) : bool :=
  match t with
  | rate_limit | access_denied | no_results | empty_results => true
  | captcha | generic_error | processing_error => false
  end.

(** A nested field that is either missing or a dict. *)
Definition dict_or_absent (o : option value) : bool :=
  match o with
  | None | Some (VDict _) => true
  | Some _ => false
  end.

(** An authors entry the specification describes: anything that is not a
    record, a record without a name, or a record whose name is a string. *)
Definition author_entry_ok (a : value) : bool :=
  match a with
  | VDict e =>
      match e !! "name" with
      | None | Some (VStr _) => true
      | Some _ => false
      end
  | _ => true
  end.

(** The dict found under [key], the empty dict when there is none. *)
Definition subdict (d : gmap string value) (key : string) : gmap string value :=
  match d !! key with
  | Some (VDict sub) => sub
  | _ => ∅
  end.

Definition authors_ok (pub : gmap string value) : bool :=
  match pub !! "authors" with
  | Some (VList l) => forallb author_entry_ok l
  | _ => true
  end.

(** The raw items on which the normaliser runs to completion. *)
Definition well_shaped (d : gmap string value) : bool :=
  dict_or_absent (d !! "publication_info")
  && dict_or_absent (d !! "inline_links")
  && authors_ok (subdict d "publication_info").

Section Contribution.
Context `{PyRuntime}.

(** What an authors entry adds to the joined string, in the words of the
    specification: the name of a record, ["Unknown"] for a record without
    one, the stringified entry otherwise. *)
Definition contribution (a : value) : string :=
  match a with
  | VDict e =>
      match e !! "name" with
      | Some (VStr s) => s
      | _ => "Unknown"
      end
  | _ => py_str a
  end.

End Contribution.

(** ** Responses and worlds used in the concrete runs *)

Definition ok_page (items : list value) : gmap string value :=
  <["organic_results" := VList items]> ∅.

Definition error_page (msg : string) : gmap string value :=
  <["error" := VStr msg]> ∅.

Definition dict_A : gmap string value :=
  <["title" := VStr "A"]> (<["year" := VStr "2020"]> ∅).

Definition article_A : value := VDict dict_A.

Definition article_B : value :=
  VDict (<["title" := VStr "B"]> (<["link" := VStr "http://b"]> ∅)).

(** An item whose [publication_info] is JSON [null]. *)
Definition article_null_pub : value :=
  VDict (<["title" := VStr "T"]> (<["publication_info" := VNone]> ∅)).

Definition article_empty_title : value :=
  VDict (<["title" := VStr ""]> ∅).

Definition article_negative_total : value :=
  VDict (<["inline_links" :=
            VDict (<["cited_by" := VDict (<["total" := VInt (-5)]> ∅)]> ∅)]> ∅).

Definition authors_Ada_Bob : list value :=
  [VDict (<["name" := VStr "Ada"]> ∅); VStr "Bob"; VDict ∅].

Definition pub_Ada_Bob : gmap string value :=
  <["authors" := VList authors_Ada_Bob]> ∅.

(** An item with those authors whose [inline_links] is JSON [null]. *)
Definition dict_null_links : gmap string value :=
  <["publication_info" := VDict pub_Ada_Bob]> (<["inline_links" := VNone]> ∅).

(** Authors with a record whose [name] is JSON [null]. *)
Definition authors_null_name : list value :=
  [VDict (<["name" := VStr "Ada"]> ∅); VStr "Bob";
   VDict (<["name" := VNone]> ∅)].

Definition dict_null_name : gmap string value :=
  <["publication_info" := VDict (<["authors" := VList authors_null_name]> ∅)]> ∅.

Definition row_A : record :=
  {| title := VStr "A"; authors := "N/A"; publication := VStr "N/A";
     year := VStr "2020"; cited_by := VInt 0;
     link := VStr "No URL available" |}.

Definition row_B : record :=
  {| title := VStr "B"; authors := "N/A"; publication := VStr "N/A";
     year := VStr "N/A"; cited_by := VInt 0; link := VStr "http://b" |}.

(** No sleep is interrupted; the service answers by [answer]. *)
Definition quiet (answer : list event -> Params -> result (gmap string value))
  : World :=
  {| get_dict := answer; interrupted := fun _ _ => false |}.

(** Every response is the empty dict: no error, no organic results. *)
Definition always_empty : World := quiet (fun _ _ => Ok ∅).

(** The first response carries [article_A] followed by a malformed item,
    every later one reports the rate limit. *)
Definition torn_then_rate_limit : World :=
  quiet (fun tr _ =>
           match tr with
           | [] => Ok (ok_page [article_A; article_null_pub])
           | _ => Ok (error_page "Rate limit exceeded")
           end).

(** Every response is a page of one malformed item. *)
Definition always_null_pub : World :=
  quiet (fun _ _ => Ok (ok_page [article_null_pub])).

(** Every response is a page of two items. *)
Definition always_two : World :=
  quiet (fun _ _ => Ok (ok_page [article_A; article_B])).

Definition always_generic_error : World :=
  quiet (fun _ _ => Ok (error_page "Internal server error")).

(** A CAPTCHA notice first, a good page afterwards. *)
Definition captcha_then_ok : World :=
  quiet (fun tr _ =>
           match tr with
           | [] => Ok (error_page "CAPTCHA required")
           | _ => Ok (ok_page [article_A])
           end).


(** Every fetch fails at the transport level. *)
Definition always_disconnected : World :=
  quiet (fun _ _ => Raise ConnectionError).

(** A good page first; the interrupt arrives during the second request. *)
Definition interrupted_request : World :=
  quiet (fun tr _ =>
           match tr with
           | [] => Ok (ok_page [article_A])
           | _ => Raise KeyboardInterrupt
           end).

(** ** The rest of the program: constructor, prompts, CSV export, main *)

(** What [__init__] stores in [self]. *)
Record scraper : Type := {
  self_api_key : string;
  self_results : list record;
  self_max_retries : nat;
  self_retry_delay : nat
}.

(** [GoogleScholarScraperSerpAPI(api_key)]; [None] is Python's [None]. *)
Definition new_scraper (api_key : option string) : result scraper :=
  match api_key with
  | None => Raise ValueError
  | Some k =>
      if String.eqb k "" then Raise ValueError
      else Ok {| self_api_key := k;
                 self_results := [];
                 self_max_retries := 3;
                 self_retry_delay := 5 |}
  end.

(** What the operator does at a prompt: types a line, or presses Ctrl-C.
    A keyboard that has run out is the end of the input. *)
Inductive typed : Type :=
| Line (text : string)
| CtrlC.

(** [datetime.now()], to the second. *)
Record datetime : Type := {
  dt_year : nat;
  dt_month : nat;
  dt_day : nat;
  dt_hour : nat;
  dt_minute : nat;
  dt_second : nat
}.

(** The decimal digit of the units of [n]. *)
Definition digit (n : nat) : ascii := ascii_of_nat (48 + n mod 10).

(** [%m], [%d], [%H], [%M], [%S]: two digits, zero-padded. *)
Definition two_digits (n : nat) : string :=
  String (digit (n / 10)) (String (digit n) EmptyString).

(** [%Y] for the years from 1000 on: four digits.  (For earlier years the
    C library decides about the padding.) *)
Definition four_digits (n : nat) : string :=
  String (digit (n / 1000))
    (String (digit (n / 100))
       (String (digit (n / 10)) (String (digit n) EmptyString))).

(** [strftime("%Y%m%d_%H%M%S")] *)
Definition strftime (t : datetime) : string :=
  four_digits (dt_year t) +:+ two_digits (dt_month t)
  +:+ two_digits (dt_day t) +:+ "_"
  +:+ two_digits (dt_hour t) +:+ two_digits (dt_minute t)
  +:+ two_digits (dt_second t).

(** The name [save_to_csv] picks when it is given none. *)
Definition default_filename (t : datetime) : string :=
  "scholar_results_" +:+ strftime t +:+ ".csv".

(** [save_to_csv(df, filename)]: [to_csv] stands for
    [df.to_csv(filename, index=False, encoding='utf-8-sig')], [now] for the
    clock.  Returns the file name, or [None]. *)
Definition save_to_csv (now : datetime)
    (to_csv : string -> list record -> result unit)
    (df : list record) (filename : option string) : result (option string) :=
  match df with
  | [] => Ok None
  | _ :: _ =>
      let filename :=
        match filename with
        | None => default_filename now
        | Some f => f
        end in
      match to_csv filename df with
      | Ok _ => Ok (Some filename)
      | Raise KeyboardInterrupt => Raise KeyboardInterrupt
      | Raise _ => Ok None       (* except IOError / except Exception *)
      end
  end.

(** The calls of [df.to_csv] that [save_to_csv(df, filename)] makes, each
    with its file name and its frame: none for an empty frame, otherwise
    the one of line 285, whatever becomes of it. *)
Definition to_csv_calls (now : datetime) (df : list record)
    (filename : option string) : list (string * list record) :=
  match df with
  | [] => []
  | _ :: _ =>
      [(match filename with
        | None => default_filename now
        | Some f => f
        end, df)]
  end.

(** The timestamps [datetime.now()] can give from the year 1000 on. *)
Definition valid_datetime (t : datetime) : Prop :=
  1000 <= dt_year t < 10 * 1000 /\ 1 <= dt_month t <= 12 /\
  1 <= dt_day t <= 31 /\ dt_hour t < 24 /\ dt_minute t < 60 /\
  dt_second t < 60.

Section Prompts.
Context `{PyRuntime}.
(** [int(text)]: [None] when it raises [ValueError]. *)
Variable py_int : string -> option Z.

(** The first loop of [get_user_input]: prompt until the stripped line is
    not empty.  The end of the input raises [EOFError], an [Exception]
    that is rendered as [OtherException]. *)
Fixpoint read_query (keyboard : list typed) : result (string * list typed) :=
  match keyboard with
  | [] => Raise OtherException
  | CtrlC :: _ => Raise KeyboardInterrupt
  | Line text :: rest =>
      let query := str_strip text in
      if String.eqb query "" then read_query rest
      else Ok (query, rest)
  end.

(** The [while True] loop of [get_user_input]. *)
Fixpoint read_num_pages (keyboard : list typed) : result (Z * list typed) :=
  match keyboard with
  | [] => Raise OtherException
  | CtrlC :: _ => Raise KeyboardInterrupt
  | Line text :: rest =>
      let num_pages := str_strip text in
      if String.eqb num_pages "" then Ok (3%Z, rest)
      else
        match py_int num_pages with
        | None => read_num_pages rest          (* except ValueError *)
        | Some n =>
            if (n <? 1)%Z then read_num_pages rest
            else if (10 <? n)%Z then
              match rest with
              | [] => Raise OtherException
              | CtrlC :: _ => Raise KeyboardInterrupt
              | Line answer :: rest' =>
                  let confirm := str_lower (str_strip answer) in
                  if negb (String.eqb confirm "y") then read_num_pages rest'
                  else Ok (n, rest')
              end
            else Ok (n, rest)
        end
  end.

(** [get_user_input()]: the query, the number of pages, and what is left
    of the keyboard. *)
Definition get_user_input (keyboard : list typed)
  : result (string * Z * list typed) :=
  '(query, rest) ← read_query keyboard;
  '(num_pages, rest) ← read_num_pages rest;
  Ok (query, num_pages, rest).

(** What the [__main__] block runs on: the environment variable, the
    keyboard, the clock, the file system, and the printing of the preview
    and the statistics by pandas. *)
Record Host : Type := {
  environ_key : option string;
  keyboard_of : list typed;
  now_of : datetime;
  to_csv_of : string -> list record -> result unit;
  show_of : list record -> result unit
}.

(** How the process ends, and the calls of [df.to_csv] it has made, each
    with its file name and its frame.  What a call that raised has left on
    the disk - nothing, or a part of the rows - is not recorded. *)
Record finished : Type := {
  exit_code : nat;
  exports : list (string * list record)
}.

(** The two [except] clauses of the [__main__] block. *)
Definition main_except (e : exn) (calls : list (string * list record))
  : finished :=
  {| exit_code := match e with KeyboardInterrupt => 0 | _ => 1 end;
     exports := calls |}.

(** The [__main__] block; [None] while [search_articles] is still running
    after [fuel] steps.  The value [save_to_csv] returns is not used. *)
Definition main (h : Host) (w : World) (fuel : nat) : option finished :=
  match environ_key h with
  | None => Some {| exit_code := 1; exports := [] |}
  | Some API_KEY =>
      if String.eqb API_KEY "" then Some {| exit_code := 1; exports := [] |}
      else
        match get_user_input (keyboard_of h) with
        | Raise e => Some (main_except e [])
        | Ok (search_query, pages, _) =>
            match new_scraper (Some API_KEY) with
            | Raise e => Some (main_except e [])
            | Ok self =>
                match search_articles w (self_api_key self) search_query
                        (Z.to_nat pages) 1 fuel with
                | None => None
                | Some (Raise e) => Some (main_except e [])
                | Some (Ok []) => Some {| exit_code := 0; exports := [] |}
                | Some (Ok df) =>
                    let calls := to_csv_calls (now_of h) df None in
                    match save_to_csv (now_of h) (to_csv_of h) df None with
                    | Raise e => Some (main_except e calls)
                    | Ok _ =>
                        match show_of h df with
                        | Ok _ => Some {| exit_code := 0; exports := calls |}
                        | Raise e => Some (main_except e calls)
                        end
                    end
                end
            end
        end
  end.

End Prompts.

(** [int] on plain decimal numerals: an optional sign and digits. *)
Fixpoint decimal_digits (s : string) (acc : Z) : option Z :=
  match s with
  | EmptyString => Some acc
  | String c rest =>
      let n := nat_of_ascii c in
      if (48 <=? n) && (n <=? 57)
      then decimal_digits rest (10 * acc + Z.of_nat (n - 48))%Z
      else None
  end.

Definition decimal_int (s : string) : option Z :=
  match s with
  | EmptyString => None
  | String "-" (String c rest) => Z.opp <$> decimal_digits (String c rest) 0%Z
  | String "+" (String c rest) => decimal_digits (String c rest) 0%Z
  | _ => decimal_digits s 0%Z
  end.

(** ** Vocabulary for the properties of a run *)

(** The waits of [search_articles]: the back-off of 5 or 10 seconds, or
    the delay between pages. *)
Definition backoff_or_delay (delay secs : nat) : Prop :=
  secs = 5 \/ secs = 10 \/ secs = delay.

(** The offsets requested so far, in the order of the requests. *)
Fixpoint fetch_starts (tr : list event) : list nat :=
  match tr with
  | [] => []
  | Fetch p :: rest => start p :: fetch_starts rest
  | Sleep _ :: rest => fetch_starts rest
  end.

(** The number of requests made so far. *)
Definition fetch_count (tr : list event) : nat := length (fetch_starts tr).

(** The seconds slept so far. *)
Fixpoint slept (tr : list event) : nat :=
  match tr with
  | [] => 0
  | Sleep secs :: rest => secs + slept rest
  | Fetch _ :: rest => slept rest
  end.

Definition is_interrupt (e : exn) : bool :=
  match e with
  | KeyboardInterrupt => true
  | _ => false
  end.

(** The call [ev], made after the calls [tr], is cut short by the
    operator: a wait that is interrupted, or a request during which the
    [KeyboardInterrupt] arrives. *)
Definition interrupted_at (w : World) (tr : list event) (ev : event) : Prop :=
  match ev with
  | Sleep secs => interrupted w tr secs = true
  | Fetch p => get_dict w tr p = Raise KeyboardInterrupt
  end.

(** One more than the page the loops are at; the number of requested
    pages once they have ended. *)
Definition page_bound (num_pages : nat) (c : config) : nat :=
  match c with
  | AtWhile page _ _ _ => page + 1
  | _ => num_pages
  end.

(** The dict that holds [v] at the end of the key path [ks]. *)
Fixpoint nest (ks : list string) (v : value) : value :=
  match ks with
  | [] => v
  | k :: rest => VDict (<[k := nest rest v]> ∅)
  end.

(** ** A host for the concrete runs of the main program *)

(** 5 March 2024, 14:07:09. *)
Definition a_tuesday : datetime :=
  {| dt_year := 2024; dt_month := 3; dt_day := 5;
     dt_hour := 14; dt_minute := 7; dt_second := 9 |}.

(** The key is set, the operator asks for two pages of "graph theory",
    the disk and the terminal work. *)
Definition a_host : Host :=
  {| environ_key := Some "secret";
     keyboard_of := [Line ""; Line "  graph theory "; Line "two"; Line "0";
                     Line "2"; Line "unread"];
     now_of := a_tuesday;
     to_csv_of := fun _ _ => Ok tt;
     show_of := fun _ => Ok tt |}.


(** * Properties *)

(** ** The normaliser *)

Lemma bind_Ok_inv {A B} (m : result A) (k : A -> result B) b :
  (m ≫= k) = Ok b -> exists a, m = Ok a /\ k a = Ok b.
Proof. destruct m as [a|e]; simpl; [eauto|discriminate]. Qed.

Section NormaliserFacts.
Context `{PyRuntime}.

Lemma walk_raises_attribute_error v ks e :
  walk v ks = Raise e -> e = AttributeError.
Proof.
  revert v. induction ks as [|k ks IH]; intros v; simpl; [discriminate|].
  destruct v; simpl; try congruence. apply IH.
Qed.

(** [safe_get_field] absorbs every exception its body can raise. *)
Lemma safe_get_field_total data ks dflt : is_Ok (safe_get_field data ks dflt).
Proof.
  unfold safe_get_field, is_Ok. destruct ks as [l|k].
  - destruct (walk data l) as [v|e] eqn:E; simpl; [eauto|].
    apply walk_raises_attribute_error in E. subst e. eauto.
  - destruct data; simpl; eauto.
Qed.

Lemma safe_get_field_key d k dflt :
  safe_get_field (VDict d) (Key k) dflt = Ok (default dflt (d !! k)).
Proof. reflexivity. Qed.

Lemma safe_get_field_key_not_dict data k dflt :
  (forall d, data <> VDict d) -> safe_get_field data (Key k) dflt = Ok dflt.
Proof. intros Hd. destruct data; try reflexivity. now destruct (Hd d). Qed.

(** With a list of keys the default also replaces a value that is falsy,
    and a path that leaves the dicts. *)
Lemma safe_get_field_path data ks dflt :
  safe_get_field data (KeyList ks) dflt =
  Ok match walk data ks with
     | Ok v => if truthy v then v else dflt
     | Raise _ => dflt
     end.
Proof.
  unfold safe_get_field.
  destruct (walk data ks) as [v|e] eqn:E; simpl; [reflexivity|].
  apply walk_raises_attribute_error in E. now subst e.
Qed.

Lemma dict_or_absent_get d k :
  dict_or_absent (d !! k) = true ->
  default (VDict ∅) (d !! k) = VDict (subdict d k).
Proof.
  unfold dict_or_absent, subdict. destruct (d !! k) as [[]|]; simpl; congruence.
Qed.

Lemma author_item_contribution a :
  author_entry_ok a = true -> author_item a = VStr (contribution a).
Proof.
  destruct a; simpl; try reflexivity.
  destruct (d !! "name") as [[]|]; simpl; congruence.
Qed.

Lemma all_str_author_items l :
  forallb author_entry_ok l = true ->
  all_str (author_item <$> l) = Ok (contribution <$> l).
Proof.
  induction l as [|a l IH]; [reflexivity|].
  intros [Ha Hl]%andb_prop. rewrite !fmap_cons.
  rewrite (author_item_contribution a Ha). simpl.
  rewrite (IH Hl). reflexivity.
Qed.

Lemma extract_authors_spec pub :
  authors_ok pub = true ->
  extract_authors (VDict pub) =
  Ok match pub !! "authors" with
     | Some (VList (a :: l)) => String.concat ", " (contribution <$> (a :: l))
     | _ => "N/A"
     end.
Proof.
  unfold authors_ok, extract_authors. simpl.
  destruct (pub !! "authors") as [[]|]; simpl; try reflexivity.
  destruct l as [|a l]; [reflexivity|]. intros Hl.
  unfold str_join. change (truthy (VList (a :: l))) with true. cbv iota.
  rewrite (all_str_author_items (a :: l) Hl). reflexivity.
Qed.

Lemma extract_cited_by_spec d :
  dict_or_absent (d !! "inline_links") = true ->
  extract_cited_by (VDict d) =
  Ok match subdict d "inline_links" !! "cited_by" with
     | Some (VDict c) => default (VInt 0) (c !! "total")
     | _ => VInt 0
     end.
Proof.
  intros Hd. unfold extract_cited_by. simpl.
  rewrite (dict_or_absent_get _ _ Hd). simpl.
  destruct (subdict d "inline_links" !! "cited_by") as [[]|]; reflexivity.
Qed.

Lemma normalize_not_dict article :
  (forall d, article <> VDict d) -> normalize article = Raise AttributeError.
Proof.
  intros Hd. unfold normalize.
  rewrite (safe_get_field_key_not_dict _ _ _ Hd). simpl.
  destruct article; try reflexivity. now destruct (Hd d).
Qed.

(** The record of a well-shaped item, field by field. *)
Lemma normalize_well_shaped d :
  well_shaped d = true ->
  normalize (VDict d) =
  Ok {| title := default (VStr "Untitled") (d !! "title");
        authors :=
          match subdict d "publication_info" !! "authors" with
          | Some (VList (a :: l)) =>
              String.concat ", " (contribution <$> (a :: l))
          | _ => "N/A"
          end;
        publication :=
          default (VStr "N/A") (subdict d "publication_info" !! "summary");
        year := default (VStr "N/A") (d !! "year");
        cited_by :=
          match subdict d "inline_links" !! "cited_by" with
          | Some (VDict c) => default (VInt 0) (c !! "total")
          | _ => VInt 0
          end;
        link := default (VStr "No URL available") (d !! "link") |}.
Proof.
  unfold well_shaped. intros [[Hp Hi]%andb_prop Ha]%andb_prop.
  unfold normalize. rewrite safe_get_field_key.
  change (dict_get (VDict d) "publication_info" (VDict ∅))
    with (Ok (A:=value) (default (VDict ∅) (d !! "publication_info"))).
  rewrite (dict_or_absent_get _ _ Hp). simpl.
  rewrite (extract_authors_spec _ Ha). simpl.
  rewrite (extract_cited_by_spec _ Hi). reflexivity.
Qed.

Lemma normalize_inv d r :
  normalize (VDict d) = Ok r ->
  extract_authors (default (VDict ∅) (d !! "publication_info")) = Ok (authors r)
  /\ extract_cited_by (VDict d) = Ok (cited_by r).
Proof.
  unfold normalize. rewrite !safe_get_field_key.
  intros (t & [= <-] & Hn)%bind_Ok_inv.
  apply bind_Ok_inv in Hn as (p & [= <-] & Hn).
  apply bind_Ok_inv in Hn as (a & Ha & Hn).
  apply bind_Ok_inv in Hn as (c & Hc & Hn).
  apply bind_Ok_inv in Hn as (l & _ & Hn).
  apply bind_Ok_inv in Hn as (s & _ & Hn).
  apply bind_Ok_inv in Hn as (y & _ & Hn).
  injection Hn as <-. simpl. split; assumption.
Qed.

Lemma normalize_cited_by article r :
  normalize article = Ok r ->
  exists d, article = VDict d /\ extract_cited_by (VDict d) = Ok (cited_by r).
Proof.
  intros Hn. destruct article as [| | | | | |d];
    try (rewrite normalize_not_dict in Hn by discriminate; discriminate).
  exists d. split; [reflexivity|]. now apply normalize_inv.
Qed.

(** C6 (as amended): [safe_get_field] never raises, and [normalize] returns
    a record for every raw item that is a dict whose [publication_info] and
    [inline_links] are each missing or a dict and whose author records have
    a string name or none.  In that record a field whose key is missing has
    its default (['Untitled'], ['N/A'], [0], ['No URL available']),
    [authors] is ['N/A'] when the authors value is missing, not a list or
    empty, and a value that is present is kept as it is, even when it is
    empty or of another type. *)
Theorem normalize_defaults d :
  well_shaped d = true ->
  (forall data ks dflt, is_Ok (safe_get_field data ks dflt)) /\
  exists r,
    normalize (VDict d) = Ok r /\
    title r = default (VStr "Untitled") (d !! "title") /\
    link r = default (VStr "No URL available") (d !! "link") /\
    year r = default (VStr "N/A") (d !! "year") /\
    publication r =
      default (VStr "N/A") (subdict d "publication_info" !! "summary") /\
    match subdict d "publication_info" !! "authors" with
    | Some (VList (_ :: _)) => True
    | _ => authors r = "N/A"
    end /\
    cited_by r =
      match subdict d "inline_links" !! "cited_by" with
      | Some (VDict c) => default (VInt 0) (c !! "total")
      | _ => VInt 0
      end.
Proof.
  intros Hd. split; [apply safe_get_field_total|].
  eexists. split; [apply (normalize_well_shaped d Hd)|]. simpl.
  repeat split.
  destruct (subdict d "publication_info" !! "authors") as [[| | | | |[|a l]|]|];
    done.
Qed.

(** C7 (as amended): whenever [normalize] produces a record, its [cited_by]
    field is the value stored at inline_links -> cited_by -> total, of
    whatever type or sign, when [cited_by] is a dict that holds a total; it
    is [0] when [inline_links] or [cited_by] is missing, when [cited_by] is
    not a dict, and when it holds no total. *)
Theorem cited_by_is_the_stored_total article r :
  normalize article = Ok r ->
  exists d,
    article = VDict d /\
    cited_by r =
      match subdict d "inline_links" !! "cited_by" with
      | Some (VDict c) => default (VInt 0) (c !! "total")
      | _ => VInt 0
      end.
Proof.
  intros Hn. destruct (normalize_cited_by _ _ Hn) as (d & -> & Hc).
  exists d. split; [reflexivity|].
  assert (Hi : dict_or_absent (d !! "inline_links") = true).
  { revert Hc. unfold extract_cited_by. simpl.
    destruct (d !! "inline_links") as [[]|]; simpl; done. }
  rewrite (extract_cited_by_spec _ Hi) in Hc. congruence.
Qed.

Lemma all_str_author_items_bad l :
  forallb author_entry_ok l = false ->
  all_str (author_item <$> l) = Raise TypeError.
Proof.
  induction l as [|a l IH]; [discriminate|].
  rewrite fmap_cons. cbn [forallb].
  destruct (author_entry_ok a) eqn:Ha; cbn [andb].
  - intros Hl. rewrite (author_item_contribution a Ha). simpl.
    now rewrite (IH Hl).
  - intros _. destruct a; try discriminate. simpl in Ha |- *.
    destruct (d !! "name") as [[]|]; try discriminate; reflexivity.
Qed.

Lemma extract_authors_bad pub l :
  pub !! "authors" = Some (VList l) ->
  forallb author_entry_ok l = false ->
  extract_authors (VDict pub) = Raise TypeError.
Proof.
  intros Hl Hbad. unfold extract_authors. simpl. rewrite Hl. simpl.
  destruct l as [|a l]; [discriminate|].
  change (truthy (VList (a :: l))) with true. cbv iota.
  unfold str_join. now rewrite (all_str_author_items_bad _ Hbad).
Qed.

Lemma extract_cited_by_bad d :
  dict_or_absent (d !! "inline_links") = false ->
  extract_cited_by (VDict d) = Raise AttributeError.
Proof.
  unfold extract_cited_by, dict_or_absent. simpl.
  destruct (d !! "inline_links") as [[]|]; simpl; done.
Qed.

(** C8 (what holds, and the defect): for an item whose [publication_info]
    holds a non-empty authors list, [normalize] does one of three things.
    When every record of the list has a string name or none and
    [inline_links] is missing or a dict, it returns a record whose authors
    string joins, in the order of the list and separated by [", "], the
    name of each named record, ['Unknown'] for each record without a name
    and the stringified value of every entry that is not a record.  When
    some record has a name that is not a string it raises [TypeError], and
    when the names are fine but [inline_links] is present and not a dict
    it raises [AttributeError]: in both cases no authors string is
    produced, whatever well-formed and malformed entries the list
    holds. *)
Theorem authors_joined_unless_normalize_raises d pub l :
  d !! "publication_info" = Some (VDict pub) ->
  pub !! "authors" = Some (VList l) ->
  l <> [] ->
  match normalize (VDict d) with
  | Ok r =>
      forallb author_entry_ok l = true /\
      dict_or_absent (d !! "inline_links") = true /\
      authors r = String.concat ", " (contribution <$> l)
  | Raise e =>
      (forallb author_entry_ok l = false /\ e = TypeError) \/
      (forallb author_entry_ok l = true /\
       dict_or_absent (d !! "inline_links") = false /\
       e = AttributeError)
  end.
Proof.
  intros Hp Hl Hne.
  destruct (forallb author_entry_ok l) eqn:Hok.
  - destruct (dict_or_absent (d !! "inline_links")) eqn:Hi.
    + assert (Hd : well_shaped d = true).
      { unfold well_shaped, subdict, authors_ok.
        rewrite Hi, Hp, Hl. simpl. exact Hok. }
      rewrite (normalize_well_shaped d Hd). cbn [authors].
      unfold subdict. rewrite Hp, Hl.
      destruct l as [|a l]; [done|]. done.
    + assert (Hn : normalize (VDict d) = Raise AttributeError).
      { unfold normalize. rewrite safe_get_field_key.
        change (dict_get (VDict d) "publication_info" (VDict ∅))
          with (Ok (A:=value) (default (VDict ∅) (d !! "publication_info"))).
        rewrite Hp. cbn [default from_option id mbind result_bind].
        rewrite extract_authors_spec by (unfold authors_ok; now rewrite Hl).
        cbn [mbind result_bind]. now rewrite (extract_cited_by_bad d Hi). }
      rewrite Hn. right. done.
  - assert (Hn : normalize (VDict d) = Raise TypeError).
    { unfold normalize. rewrite safe_get_field_key.
      change (dict_get (VDict d) "publication_info" (VDict ∅))
        with (Ok (A:=value) (default (VDict ∅) (d !! "publication_info"))).
      rewrite Hp. cbn [default from_option id mbind result_bind].
      now rewrite (extract_authors_bad pub l Hl Hok). }
    rewrite Hn. left. done.
Qed.

End NormaliserFacts.

(** C6, concretely: an item whose [publication_info] is [null] makes
    [normalize] raise, and an empty title is kept instead of
    ['Untitled']. *)
Lemma normalize_raises_and_keeps_empty :
  normalize (H:=ascii_runtime) article_null_pub = Raise AttributeError /\
  exists r, normalize (H:=ascii_runtime) article_empty_title = Ok r /\
            title r = VStr "".
Proof. split; [reflexivity|]. eexists. split; reflexivity. Qed.

(** C7, concretely: a negative total is kept as the citation count. *)
Lemma negative_total_is_kept :
  exists r, normalize (H:=ascii_runtime) article_negative_total = Ok r /\
            cited_by r = VInt (-5).
Proof. eexists. split; reflexivity. Qed.

(** ** The classifier *)

Section ClassifierFacts.
Context `{PyRuntime}.

(** [continue_scraping] is [False] exactly for the tags that end the run. *)
Lemma handle_api_error_continue results_ page_num c t :
  handle_api_error results_ page_num = Ok (c, t) ->
  c = match t with
      | Some tag => negb (stops_run tag)
      | None => true
      end.
Proof.
  unfold handle_api_error.
  destruct (bool_decide _).
  - destruct (lower _) as [msg|]; simpl; [|discriminate].
    repeat (destruct (_ || _)); intros [= <- <-]; reflexivity.
  - destruct (dict_get _ "status" _) as [status|]; simpl; [|discriminate].
    destruct (match status with VStr s => _ | _ => false end);
      [intros [= <- <-]; reflexivity|].
    destruct (dict_get _ "organic_results_state" _) as [st|]; simpl;
      [|discriminate].
    destruct (lower st) as [state|]; simpl; [|discriminate].
    destruct (contains "empty" state); intros [= <- <-]; reflexivity.
Qed.

End ClassifierFacts.

(** ** The page loop *)

Section RunFacts.
Context `{PyRuntime}.
Variable w : World.
Variables key query : string.
Variables num_pages delay : nat.

#[local] Abbreviation step_ := (step w key query num_pages delay).
#[local] Abbreviation steps_ := (steps w key query num_pages delay).
#[local] Abbreviation attempt_ := (attempt w key query num_pages delay).
#[local] Abbreviation search_ := (search_articles w key query num_pages delay).
#[local] Abbreviation params_ := (params key query).
#[local] Abbreviation init_ := (init num_pages).
#[local] Abbreviation for_next_ := (for_next num_pages).

Lemma steps_succ n c : steps_ (S n) c = step_ (steps_ n c).
Proof. revert c. induction n as [|n IH]; intros c; [reflexivity|]. apply (IH (step_ c)). Qed.

Lemma steps_plus n m c : steps_ (n + m) c = steps_ m (steps_ n c).
Proof. revert c. induction n as [|n IH]; intros c; [reflexivity|]. apply IH. Qed.

Lemma steps_Returned n why s : steps_ n (Returned why s) = Returned why s.
Proof. induction n; [reflexivity|assumption]. Qed.

Lemma steps_Uncaught n e s : steps_ n (Uncaught e s) = Uncaught e s.
Proof. induction n; [reflexivity|assumption]. Qed.

(** Once a [return] was executed, more fuel changes nothing. *)
Lemma returned_for_good n why s fuel :
  steps_ n init_ = Returned why s -> n <= fuel ->
  steps_ fuel init_ = Returned why s /\ search_ fuel = Some (Ok (results s)).
Proof.
  intros Hn Hle. replace fuel with (n + (fuel - n)) by lia.
  unfold search_articles. rewrite steps_plus, Hn, steps_Returned. done.
Qed.


(** The body of the loop runs whenever retries are left and the page has
    not succeeded. *)
Lemma step_attempt page retry_count s :
  retry_count < max_retries ->
  step_ (AtWhile page retry_count false s) =
  match attempt_ page retry_count s with
  | Iterate retry_count' page_success' s' =>
      AtWhile page retry_count' page_success' s'
  | Return why s' => Returned why s'
  | Propagate e s' => Uncaught e s'
  end.
Proof.
  intros Hr. simpl. apply Nat.ltb_lt in Hr. rewrite Hr. reflexivity.
Qed.

(** A response classified with a tag that ends the run. *)
Lemma attempt_stop page retry_count s resp tag :
  get_dict w (trace s) (params_ page) = Ok resp ->
  handle_api_error resp (page + 1) = Ok (false, Some tag) ->
  attempt_ page retry_count s =
  Return (Stopped (Some tag)) (log (Fetch (params_ page)) s).
Proof. intros Hg Hc. unfold attempt. rewrite Hg, Hc. reflexivity. Qed.

(** A response classified with a tag that lets the run continue. *)
Lemma attempt_error page retry_count s resp tag :
  get_dict w (trace s) (params_ page) = Ok resp ->
  handle_api_error resp (page + 1) = Ok (true, Some tag) ->
  attempt_ page retry_count s =
  let s1 := bump (log (Fetch (params_ page)) s) in
  if max_consecutive_errors <=? consecutive_errors s1
  then Return TooManyErrors s1
  else if retry_count + 1 <? max_retries
       then sleep w (retry_delay * (retry_count + 1)) s1
              (Iterate (retry_count + 1) false)
       else Iterate (retry_count + 1) false s1.
Proof. intros Hg Hc. unfold attempt. rewrite Hg, Hc. reflexivity. Qed.

(** A response the classifier finds no error in. *)
Lemma attempt_ok page retry_count s resp :
  get_dict w (trace s) (params_ page) = Ok resp ->
  handle_api_error resp (page + 1) = Ok (true, None) ->
  attempt_ page retry_count s =
  process_organic_results w num_pages delay resp page retry_count
    (set_consecutive_errors 0 (log (Fetch (params_ page)) s)).
Proof. intros Hg Hc. unfold attempt. rewrite Hg, Hc. reflexivity. Qed.

(** No organic results: the counter goes up, nothing else changes. *)
Lemma process_no_results resp page retry_count s :
  truthy (default VNone (resp !! "organic_results")) = false ->
  process_organic_results w num_pages delay resp page retry_count s =
  Iterate retry_count false (bump s).
Proof.
  intros Ht. unfold process_organic_results. rewrite Ht.
  now rewrite andb_false_r.
Qed.

(** A response classified with one of the tags that end the run
    (RATE_LIMIT, ACCESS_DENIED, NO_RESULTS, EMPTY_RESULTS): the run returns
    what [self.results] holds at that moment, and the fetch that brought
    the response is its last call. *)
Lemma stop_tag_returns_accumulated n page retry_count s resp c tag :
  steps_ n init_ = AtWhile page retry_count false s ->
  retry_count < max_retries ->
  get_dict w (trace s) (params_ page) = Ok resp ->
  handle_api_error resp (page + 1) = Ok (c, Some tag) ->
  stops_run tag = true ->
  forall fuel, n < fuel ->
    search_ fuel = Some (Ok (results s)) /\
    exists s',
      steps_ fuel init_ = Returned (Stopped (Some tag)) s' /\
      results s' = results s /\
      trace s' = trace s ++ [Fetch (params_ page)].
Proof.
  intros Hn Hr Hg Hc Hstop fuel Hfuel.
  pose proof (handle_api_error_continue _ _ _ _ Hc) as Hcont.
  simpl in Hcont. rewrite Hstop in Hcont. simpl in Hcont. subst c.
  assert (Hs : steps_ (S n) init_
               = Returned (Stopped (Some tag)) (log (Fetch (params_ page)) s)).
  { rewrite steps_succ, Hn, (step_attempt _ _ _ Hr).
    now rewrite (attempt_stop _ _ _ _ _ Hg Hc). }
  destruct (returned_for_good _ _ _ fuel Hs) as [Hf Hsearch]; [lia|].
  split; [exact Hsearch|]. eexists. split; [exact Hf|]. done.
Qed.

(** C4: a response classified GENERIC, PROCESSING_ERROR or CAPTCHA
    increments the consecutive-error counter; when the counter thereby
    reaches the ceiling of 3, [search_articles] returns the accumulated
    records at once, the fetch of that response being its last call;
    below the ceiling the run goes on with the incremented counter.  After
    a response classified OK the rest of the attempt starts from a counter
    reset to 0. *)
Theorem classifier_errors_count_to_the_ceiling n page retry_count s resp :
  steps_ n init_ = AtWhile page retry_count false s ->
  retry_count < max_retries ->
  get_dict w (trace s) (params_ page) = Ok resp ->
  (forall c tag,
     handle_api_error resp (page + 1) = Ok (c, Some tag) ->
     stops_run tag = false ->
     (max_consecutive_errors <= consecutive_errors s + 1 ->
      forall fuel, n < fuel ->
        search_ fuel = Some (Ok (results s)) /\
        exists s',
          steps_ fuel init_ = Returned TooManyErrors s' /\
          results s' = results s /\
          consecutive_errors s' = consecutive_errors s + 1 /\
          trace s' = trace s ++ [Fetch (params_ page)]) /\
     (consecutive_errors s + 1 < max_consecutive_errors ->
      exists s',
        (steps_ (S n) init_ = AtWhile page (retry_count + 1) false s' \/
         steps_ (S n) init_ = Uncaught KeyboardInterrupt s') /\
        results s' = results s /\
        consecutive_errors s' = consecutive_errors s + 1)) /\
  (handle_api_error resp (page + 1) = Ok (true, None) ->
   exists s0,
     consecutive_errors s0 = 0 /\
     results s0 = results s /\
     attempt_ page retry_count s =
     process_organic_results w num_pages delay resp page retry_count s0).
Proof.
  intros Hn Hr Hg. split.
  - intros c tag Hc Hstop.
    pose proof (handle_api_error_continue _ _ _ _ Hc) as Hcont.
    simpl in Hcont. rewrite Hstop in Hcont. simpl in Hcont. subst c.
    pose proof (attempt_error _ retry_count _ _ _ Hg Hc) as Ha.
    cbv zeta in Ha. split.
    + intros Hce fuel Hfuel.
      assert (Hs : steps_ (S n) init_
                   = Returned TooManyErrors
                       (bump (log (Fetch (params_ page)) s))).
      { rewrite steps_succ, Hn, (step_attempt _ _ _ Hr), Ha.
        apply Nat.leb_le in Hce. simpl consecutive_errors. now rewrite Hce. }
      destruct (returned_for_good _ _ _ fuel Hs) as [Hf Hsearch]; [lia|].
      split; [exact Hsearch|]. eexists. split; [exact Hf|]. done.
    + intros Hce. rewrite steps_succ, Hn, (step_attempt _ _ _ Hr), Ha.
      simpl consecutive_errors.
      replace (max_consecutive_errors <=? consecutive_errors s + 1)
        with false by (symmetry; apply Nat.leb_gt; lia).
      destruct (retry_count + 1 <? max_retries).
      * unfold sleep. destruct (interrupted _ _ _); eexists; split; eauto.
      * eexists; split; eauto.
  - intros Hc. eexists. split; [|split; [|apply (attempt_ok _ _ _ _ Hg Hc)]];
      reflexivity.
Qed.

(** C5 (what the code does instead): after a response classified CAPTCHA,
    with the counter below the ceiling, retries left and the back-off sleep
    not interrupted, the loop is back at the [while] test of the same page
    with [page_success] still false, so the body runs again for that
    page. *)
Theorem captcha_retries_the_same_page n page retry_count s resp :
  steps_ n init_ = AtWhile page retry_count false s ->
  get_dict w (trace s) (params_ page) = Ok resp ->
  handle_api_error resp (page + 1) = Ok (true, Some captcha) ->
  consecutive_errors s + 1 < max_consecutive_errors ->
  retry_count + 1 < max_retries ->
  interrupted w (trace s ++ [Fetch (params_ page)])
    (retry_delay * (retry_count + 1)) = false ->
  exists s',
    steps_ (S n) init_ = AtWhile page (retry_count + 1) false s' /\
    trace s' = trace s ++ [Fetch (params_ page);
                           Sleep (retry_delay * (retry_count + 1))] /\
    steps_ (S (S n)) init_ =
      match attempt_ page (retry_count + 1) s' with
      | Iterate r ok s'' => AtWhile page r ok s''
      | Return why s'' => Returned why s''
      | Propagate e s'' => Uncaught e s''
      end.
Proof.
  intros Hn Hg Hc Hce Hr Hint.
  pose proof (attempt_error _ retry_count _ _ _ Hg Hc) as Ha. cbv zeta in Ha.
  assert (Hs : steps_ (S n) init_
               = AtWhile page (retry_count + 1) false
                   (log (Sleep (retry_delay * (retry_count + 1)))
                      (bump (log (Fetch (params_ page)) s)))).
  { rewrite steps_succ, Hn, step_attempt by lia. rewrite Ha.
    simpl consecutive_errors.
    replace (max_consecutive_errors <=? consecutive_errors s + 1)
      with false by (symmetry; apply Nat.leb_gt; lia).
    apply Nat.ltb_lt in Hr. rewrite Hr. unfold sleep. simpl trace.
    now rewrite Hint. }
  eexists. split; [exact Hs|]. split.
  - simpl. now rewrite <- app_assoc.
  - rewrite steps_succ, Hs. now apply step_attempt.
Qed.

(** Neither the [except] clauses nor the processing of organic results
    contain a [return]. *)
Lemma sleep_never_returns secs s k why s' :
  (forall s0, k s0 <> Return why s') -> sleep w secs s k <> Return why s'.
Proof. intros Hk. unfold sleep. destruct (interrupted _ _ _); [discriminate|apply Hk]. Qed.

Lemma handle_never_returns e retry_count s why s' :
  handle w e retry_count s <> Return why s'.
Proof.
  destruct e; simpl; try discriminate;
    (destruct (_ <? _); [apply sleep_never_returns|]; discriminate).
Qed.

Lemma process_never_returns resp page retry_count s why s' :
  process_organic_results w num_pages delay resp page retry_count s
  <> Return why s'.
Proof.
  unfold process_organic_results.
  destruct (_ && _); [|discriminate].
  destruct (default VNone _); try apply handle_never_returns.
  destruct (collect l (results s)) as [rows [e|]]; [apply handle_never_returns|].
  destruct (_ <? _); [apply sleep_never_returns|]; discriminate.
Qed.

Lemma attempt_too_many page retry_count s s' :
  attempt_ page retry_count s = Return TooManyErrors s' ->
  exists resp tag,
    get_dict w (trace s) (params_ page) = Ok resp /\
    handle_api_error resp (page + 1) = Ok (true, Some tag) /\
    max_consecutive_errors <= consecutive_errors s + 1 /\
    s' = bump (log (Fetch (params_ page)) s).
Proof.
  unfold attempt.
  destruct (get_dict _ _ _) as [resp|e] eqn:Hg;
    [|intros Hh; now apply handle_never_returns in Hh].
  destruct (handle_api_error _ _) as [[c t]|e] eqn:Hc;
    [|intros Hh; now apply handle_never_returns in Hh].
  destruct c; cbn [negb]; [|discriminate].
  destruct t as [tag|]; [|intros Hp; now apply process_never_returns in Hp].
  destruct (max_consecutive_errors <=? _) eqn:Hce.
  - intros [= <-]. apply Nat.leb_le in Hce. exists resp, tag. done.
  - destruct (retry_count + 1 <? max_retries); [|discriminate].
    intros Hs. now apply sleep_never_returns in Hs.
Qed.

(** C10: the counter is compared with its ceiling only where a classifier
    error is handled.  (1) An OK response without organic results leaves
    the loop at the same [while] test with the same retry count and a
    counter of exactly 1.  (2) A page given up after its retries bumps the
    counter and the [for] loop moves on - to the next page, or to the
    normal end after the last one - whatever the counter has become.
    (3) A step that stops the run for too many consecutive errors is the
    handling of a response the classifier tagged as a retryable error. *)
Theorem ceiling_checked_only_for_classifier_errors :
  (forall page retry_count s resp,
     retry_count < max_retries ->
     get_dict w (trace s) (params_ page) = Ok resp ->
     handle_api_error resp (page + 1) = Ok (true, None) ->
     truthy (default VNone (resp !! "organic_results")) = false ->
     exists s',
       step_ (AtWhile page retry_count false s)
       = AtWhile page retry_count false s' /\
       consecutive_errors s' = 1 /\
       results s' = results s) /\
  (forall page retry_count s,
     max_retries <= retry_count ->
     step_ (AtWhile page retry_count false s)
     = if page + 1 <? num_pages
       then AtWhile (page + 1) 0 false (bump s)
       else Returned Completed (bump s)) /\
  (forall page retry_count page_success s s',
     step_ (AtWhile page retry_count page_success s)
     = Returned TooManyErrors s' ->
     page_success = false /\ retry_count < max_retries /\
     exists resp tag,
       get_dict w (trace s) (params_ page) = Ok resp /\
       handle_api_error resp (page + 1) = Ok (true, Some tag) /\
       max_consecutive_errors <= consecutive_errors s + 1 /\
       s' = bump (log (Fetch (params_ page)) s)).
Proof.
  split; [|split].
  - intros page retry_count s resp Hr Hg Hc Ht.
    rewrite (step_attempt _ _ _ Hr), (attempt_ok _ _ _ _ Hg Hc).
    rewrite (process_no_results _ _ _ _ Ht). eexists. split; done.
  - intros page retry_count s Hr. simpl.
    replace (retry_count <? max_retries) with false
      by (symmetry; apply Nat.ltb_ge; exact Hr).
    reflexivity.
  - intros page retry_count page_success s s'. simpl.
    destruct (retry_count <? max_retries) eqn:Hr;
      [destruct page_success|]; simpl;
      try (unfold for_next; destruct (_ <? num_pages); discriminate).
    destruct (attempt_ page retry_count s) as [r ok s1|why s1|e s1] eqn:Ha;
      try discriminate.
    intros [= -> ->]. apply Nat.ltb_lt in Hr.
    split; [reflexivity|]. split; [exact Hr|]. now apply (attempt_too_many _ retry_count).
Qed.

(** A page whose every response is OK without organic results is fetched
    again and again. *)
Lemma zero_items_forever page :
  (forall tr, exists resp,
     get_dict w tr (params_ page) = Ok resp /\
     handle_api_error resp (page + 1) = Ok (true, None) /\
     truthy (default VNone (resp !! "organic_results")) = false) ->
  forall n retry_count s,
    retry_count < max_retries ->
    exists s',
      steps_ n (AtWhile page retry_count false s)
      = AtWhile page retry_count false s' /\
      results s' = results s /\
      trace s' = trace s ++ repeat (Fetch (params_ page)) n.
Proof.
  intros Hw n retry_count. induction n as [|n IH]; intros s Hr.
  - exists s. rewrite app_nil_r. done.
  - destruct (IH s Hr) as (s1 & Hs1 & Hres & Htr).
    destruct (Hw (trace s1)) as (resp & Hg & Hc & Ht).
    eexists. rewrite steps_succ, Hs1, (step_attempt _ _ _ Hr).
    rewrite (attempt_ok _ _ _ _ Hg Hc), (process_no_results _ _ _ _ Ht).
    split; [reflexivity|]. simpl. split; [exact Hres|].
    rewrite Htr, <- app_assoc. f_equal.
    simpl repeat. now rewrite repeat_cons.
Qed.

(** *** Interrupted sleeps *)







(** *** Pages that all succeed *)

Lemma collect_all items rows rs :
  Forall2 (fun a r => normalize a = Ok r) items rs ->
  collect items rows = (rows ++ rs, None).
Proof.
  intros Hall. revert rows.
  induction Hall as [|a r items rs Ha _ IH]; intros rows; simpl.
  - now rewrite app_nil_r.
  - rewrite Ha, IH, <- app_assoc. reflexivity.
Qed.

Lemma normalized_rows items :
  Forall (fun a => is_Ok (normalize a)) items ->
  exists rs, Forall2 (fun a r => normalize a = Ok r) items rs.
Proof.
  induction 1 as [|a items [r Hr] _ [rs IH]].
  - exists []. constructor.
  - exists (r :: rs). now constructor.
Qed.

(** A page of items that all normalise, with no interrupt during the wait
    that follows it. *)
Lemma process_all_good resp page retry_count s items rs :
  (forall tr secs, interrupted w tr secs = false) ->
  resp !! "organic_results" = Some (VList items) ->
  items <> [] ->
  Forall2 (fun a r => normalize a = Ok r) items rs ->
  exists s',
    process_organic_results w num_pages delay resp page retry_count s
    = Iterate retry_count true s' /\
    results s' = results s ++ rs /\
    consecutive_errors s' = consecutive_errors s.
Proof.
  intros Hquiet Ho Hne Hall. unfold process_organic_results.
  rewrite Ho. cbv zeta. cbn [default from_option id].
  replace (bool_decide (is_Some (Some (VList items)))) with true
    by (symmetry; apply bool_decide_eq_true; eauto).
  replace (truthy (VList items)) with true
    by (destruct items; [done|reflexivity]).
  cbn [andb]. rewrite (collect_all _ _ _ Hall).
  destruct (page <? num_pages - 1).
  - unfold sleep. rewrite Hquiet. eexists. split; [reflexivity|]. done.
  - eexists. split; [reflexivity|]. done.
Qed.

Lemma flat_map_pages_length (items : nat -> list value) N k :
  (forall page, page < k -> length (items page) = N) ->
  length (flat_map items (seq 0 k)) = k * N.
Proof.
  induction k as [|k IH]; intros Hlen; [reflexivity|].
  rewrite seq_S, flat_map_app, length_app, IH by (intros; apply Hlen; lia).
  simpl. rewrite app_nil_r, Hlen by lia. lia.
Qed.

Section AllPagesSucceed.
Variable resp : nat -> gmap string value.
Variable items : nat -> list value.
Hypothesis quiet_world : forall tr secs, interrupted w tr secs = false.
Hypothesis good_pages :
  forall page, page < num_pages ->
    (forall tr, get_dict w tr (params_ page) = Ok (resp page)) /\
    handle_api_error (resp page) (page + 1) = Ok (true, None) /\
    resp page !! "organic_results" = Some (VList (items page)) /\
    items page <> [] /\
    Forall (fun a => is_Ok (normalize a)) (items page).

(** After two steps per page the [for] loop is at page [k], holding the
    rows of the pages before it. *)
Lemma pages_done k :
  k <= num_pages ->
  exists s,
    steps_ (2 * k) init_ = for_next_ k s /\
    Forall2 (fun a r => normalize a = Ok r)
      (flat_map items (seq 0 k)) (results s).
Proof.
  induction k as [|k IH]; intros Hk.
  - eexists. split; [reflexivity|]. constructor.
  - destruct IH as (s & Hs & Hrows); [lia|].
    destruct (good_pages k) as (Hg & Hc & Ho & Hne & Hok); [lia|].
    destruct (normalized_rows _ Hok) as (rs & Hrs).
    destruct (process_all_good (resp k) k 0
                (set_consecutive_errors 0 (log (Fetch (params_ k)) s))
                (items k) rs quiet_world Ho Hne Hrs)
      as (s' & Hp & Hres & _).
    exists s'. split.
    + replace (2 * S k) with (S (S (2 * k))) by lia.
      rewrite !steps_succ, Hs. unfold for_next at 1.
      replace (k <? num_pages) with true
        by (symmetry; apply Nat.ltb_lt; lia).
      rewrite step_attempt by (unfold max_retries; lia).
      rewrite (attempt_ok _ _ _ _ (Hg (trace s)) Hc), Hp.
      simpl. now replace (k + 1) with (S k) by lia.
    + rewrite seq_S, flat_map_app, Hres. simpl. rewrite app_nil_r.
      now apply Forall2_app.
Qed.

End AllPagesSucceed.

(** When no wait is interrupted and every request is answered by an
    OK-classified response whose organic results are a list of N items, N
    at least 1, each of which [normalize] turns into a record,
    [search_articles] over P pages returns P * N records: the records of
    all items, page after page and item after item. *)
Lemma search_returns_every_page
    (resp : nat -> gmap string value) (items : nat -> list value) (N : nat) :
  1 <= N ->
  (forall tr secs, interrupted w tr secs = false) ->
  (forall page, page < num_pages ->
     (forall tr, get_dict w tr (params_ page) = Ok (resp page)) /\
     handle_api_error (resp page) (page + 1) = Ok (true, None) /\
     resp page !! "organic_results" = Some (VList (items page)) /\
     length (items page) = N /\
     Forall (fun a => is_Ok (normalize a)) (items page)) ->
  forall fuel, 2 * num_pages <= fuel ->
  exists rows,
    search_ fuel = Some (Ok rows) /\
    length rows = num_pages * N /\
    Forall2 (fun a r => normalize a = Ok r)
      (flat_map items (seq 0 num_pages)) rows.
Proof.
  intros HN Hquiet Hpages fuel Hfuel.
  destruct (pages_done resp items Hquiet) with (k := num_pages)
    as (s & Hs & Hrows); [|lia|].
  { intros page Hp. destruct (Hpages page Hp) as (Hg & Hc & Ho & Hlen & Hok).
    repeat split; try assumption.
    intros Hnil. rewrite Hnil in Hlen. simpl in Hlen. lia. }
  unfold for_next in Hs. rewrite Nat.ltb_irrefl in Hs.
  destruct (returned_for_good _ _ _ fuel Hs Hfuel) as [_ Hsearch].
  exists (results s). split; [exact Hsearch|]. split; [|exact Hrows].
  rewrite <- (Forall2_length _ _ _ Hrows).
  apply flat_map_pages_length. intros page Hp.
  now destruct (Hpages page Hp) as (_ & _ & _ & Hlen & _).
Qed.

(** *** Termination when no page comes back empty *)

Section NoEmptyPages.
(** No response is at once free of errors and without organic results. *)
Hypothesis no_empty_page :
  forall tr page resp,
    get_dict w tr (params_ page) = Ok resp ->
    handle_api_error resp (page + 1) = Ok (true, None) ->
    truthy (default VNone (resp !! "organic_results")) = true.

Lemma handle_makes_progress e retry_count s :
  makes_progress retry_count (handle w e retry_count s).
Proof.
  destruct e; simpl; try exact I;
    (destruct (_ <? _); [unfold sleep; destruct (interrupted _ _ _)|];
     simpl; auto).
Qed.

Lemma attempt_makes_progress page retry_count s :
  makes_progress retry_count (attempt_ page retry_count s).
Proof.
  unfold attempt.
  destruct (get_dict _ _ _) as [resp|e] eqn:Hg;
    [|apply handle_makes_progress].
  destruct (handle_api_error _ _) as [[c t]|e] eqn:Hc;
    [|apply handle_makes_progress].
  destruct c; cbn [negb]; [|exact I].
  destruct t as [tag|].
  - destruct (max_consecutive_errors <=? _); [exact I|].
    destruct (retry_count + 1 <? max_retries);
      [unfold sleep; destruct (interrupted _ _ _)|]; simpl; auto.
  - pose proof (no_empty_page _ _ _ Hg Hc) as Ht.
    unfold process_organic_results.
    destruct (resp !! "organic_results") as [v|]; [|discriminate].
    replace (bool_decide (is_Some (Some v))) with true
      by (symmetry; apply bool_decide_eq_true; eauto).
    rewrite Ht. cbn [andb default from_option id].
    destruct v; try apply handle_makes_progress.
    cbn [results set_consecutive_errors log].
    destruct (collect l _) as [rows [e|]]; [apply handle_makes_progress|].
    destruct (_ <? _); [unfold sleep; destruct (interrupted _ _ _)|];
      simpl; auto.
Qed.

Lemma terminal_steps n c : terminal c -> steps_ n c = c.
Proof.
  destruct c; simpl; [done| |]; intros _;
    [apply steps_Returned|apply steps_Uncaught].
Qed.

(** A page is left after at most one step more than it has retries. *)
Lemma page_is_left page k :
  forall retry_count s,
    retry_count + k = max_retries ->
    exists m, m <= k + 1 /\
      (terminal (steps_ m (AtWhile page retry_count false s)) \/
       exists s', steps_ m (AtWhile page retry_count false s)
                  = for_next_ (page + 1) s').
Proof.
  induction k as [|k IH]; intros retry_count s Hk.
  - exists 1. split; [lia|]. right. exists (bump s). simpl.
    replace (retry_count <? max_retries) with false
      by (symmetry; apply Nat.ltb_ge; lia).
    reflexivity.
  - pose proof (attempt_makes_progress page retry_count s) as Hp.
    assert (Hstep := step_attempt page retry_count s ltac:(lia)).
    destruct (attempt_ page retry_count s) as [r' ok' s1|why s1|e s1].
    + destruct Hp as [->| ->].
      * exists 2. split; [lia|]. right. exists s1.
        change (steps_ 2 ?c) with (step_ (step_ c)). rewrite Hstep. simpl.
        now rewrite andb_false_r.
      * destruct ok'.
        { exists 2. split; [lia|]. right. exists s1.
          change (steps_ 2 ?c) with (step_ (step_ c)). rewrite Hstep. simpl.
          now rewrite andb_false_r. }
        destruct (IH (retry_count + 1) s1) as (m & Hm & Hend); [lia|].
        exists (S m). split; [lia|].
        change (steps_ (S m) ?c) with (steps_ m (step_ c)).
        now rewrite Hstep.
    + exists 1. split; [lia|]. left.
      change (steps_ 1 ?c) with (step_ c). now rewrite Hstep.
    + exists 1. split; [lia|]. left.
      change (steps_ 1 ?c) with (step_ c). now rewrite Hstep.
Qed.

Lemma pages_are_left j :
  forall page s,
    page + j = num_pages ->
    exists m, m <= 4 * j /\ terminal (steps_ m (for_next_ page s)).
Proof.
  induction j as [|j IH]; intros page s Hj.
  - exists 0. split; [lia|]. unfold for_next.
    replace (page <? num_pages) with false
      by (symmetry; apply Nat.ltb_ge; lia).
    exact I.
  - unfold for_next at 1.
    replace (page <? num_pages) with true
      by (symmetry; apply Nat.ltb_lt; lia).
    destruct (page_is_left page 3 0 s eq_refl) as (m1 & Hm1 & [Ht|(s' & Hs')]).
    + exists m1. split; [lia|exact Ht].
    + destruct (IH (page + 1) s') as (m2 & Hm2 & Ht); [lia|].
      exists (m1 + m2). split; [lia|]. now rewrite steps_plus, Hs'.
Qed.

(** Four steps per page are enough for [search_articles] to end. *)
Lemma search_ends_without_empty_pages fuel :
  4 * num_pages <= fuel -> exists o, search_ fuel = Some o.
Proof.
  intros Hfuel.
  destruct (pages_are_left num_pages 0 fresh eq_refl) as (m & Hm & Ht).
  unfold search_articles. replace fuel with (m + (fuel - m)) by lia.
  unfold init. rewrite steps_plus, (terminal_steps _ _ Ht).
  destruct (steps_ m _); [destruct Ht|eauto..].
Qed.

End NoEmptyPages.

End RunFacts.

(** ** Concrete runs *)

Section ConcreteRuns.
#[local] Existing Instance ascii_runtime.

(** C1 (the defect): against a service whose every response is OK without
    organic results, [search_articles] for a single page never returns:
    after any number of steps it is still at the [while] test of page 0 with
    a retry count of 0, having fetched that page once per step. *)
Theorem zero_item_pages_never_end fuel :
  search_articles always_empty "key" "query" 1 1 fuel = None /\
  exists s,
    steps always_empty "key" "query" 1 1 fuel (init 1) = AtWhile 0 0 false s /\
    trace s = repeat (Fetch (params "key" "query" 0)) fuel.
Proof.
  destruct (zero_items_forever always_empty "key" "query" 1 1 0) with
    (n := fuel) (retry_count := 0) (s := fresh) as (s & Hs & _ & Htr).
  - intros tr. exists ∅. repeat split; reflexivity.
  - unfold max_retries. lia.
  - change (init 1) with (AtWhile 0 0 false fresh).
    unfold search_articles.
    change (init 1) with (AtWhile 0 0 false fresh). rewrite Hs.
    split; [reflexivity|]. exists s. split; [reflexivity|exact Htr].
Qed.

(** C2, concretely: page 0 answers first with a page whose second item is
    malformed, then with a rate-limit error.  That second response is
    classified RATE_LIMIT, and [search_articles] returns the row the first
    attempt had appended, although no page precedes page 0. *)
Lemma rate_limit_on_page_0_returns_a_row :
  exists s,
    steps torn_then_rate_limit "k" "q" 1 1 1 (init 1) = AtWhile 0 1 false s /\
    (get_dict torn_then_rate_limit (trace s) (params "k" "q" 0)
       ≫= fun r => handle_api_error r 1) = Ok (false, Some rate_limit) /\
    search_articles torn_then_rate_limit "k" "q" 1 1 2 = Some (Ok [row_A]) /\
    [row_A] <> [].
Proof. eexists. repeat split; try (vm_compute; reflexivity). discriminate. Qed.

(** C3, concretely: every response is OK and carries one item, whose
    [publication_info] is [null]; [search_articles] over one page gives the
    page up after three attempts and returns no record at all. *)
Lemma one_item_per_page_yet_no_record :
  handle_api_error (ok_page [article_null_pub]) 1 = Ok (true, None) /\
  search_articles always_null_pub "k" "q" 1 1 4 = Some (Ok []) /\
  length (@nil record) <> 1 * 1.
Proof. repeat split; try (vm_compute; reflexivity). discriminate. Qed.


(** One response for every outcome of the classifier. *)
Example classifier_outcomes :
  handle_api_error (error_page "Too Many Requests") 1
  = Ok (false, Some rate_limit) /\
  handle_api_error (error_page "403 Forbidden") 1
  = Ok (false, Some access_denied) /\
  handle_api_error (error_page "Your IP is blocked") 1
  = Ok (true, Some captcha) /\
  handle_api_error
    (error_page "Google hasn't returned any results for this query.") 3
  = Ok (false, Some no_results) /\
  handle_api_error (error_page "Internal server error") 1
  = Ok (true, Some generic_error) /\
  handle_api_error
    (<["search_metadata" := VDict (<["status" := VStr "Error"]> ∅)]> ∅) 1
  = Ok (true, Some processing_error) /\
  handle_api_error
    (<["search_information" :=
        VDict (<["organic_results_state" := VStr "Fully empty"]> ∅)]> ∅) 1
  = Ok (false, Some empty_results) /\
  handle_api_error ∅ 1 = Ok (true, None) /\
  handle_api_error (<["error" := VNone]> ∅) 1 = Raise AttributeError.
Proof. repeat split; vm_compute; reflexivity. Qed.

(** The two forms of [safe_get_field] on an empty title, and a key path
    through nested dicts. *)
Example safe_get_field_forms :
  safe_get_field article_empty_title (Key "title") (VStr "Untitled")
  = Ok (VStr "") /\
  safe_get_field article_empty_title (KeyList ["title"]) (VStr "Untitled")
  = Ok (VStr "Untitled") /\
  safe_get_field (VStr "x") (Key "title") (VStr "Untitled")
  = Ok (VStr "Untitled") /\
  safe_get_field article_negative_total
    (KeyList ["inline_links"; "cited_by"; "total"]) (VInt 0)
  = Ok (VInt (-5)) /\
  safe_get_field article_A
    (KeyList ["inline_links"; "cited_by"; "total"]) (VInt 0)
  = Ok (VInt 0).
Proof. repeat split; vm_compute; reflexivity. Qed.

(** The run behind C5: after the CAPTCHA notice page 0 is fetched a second
    time, five seconds later, before page 1 is requested. *)
Example captcha_run :
  steps captcha_then_ok "k" "q" 2 1 5 (init 2)
  = Returned Completed
      {| results := [row_A; row_A];
         consecutive_errors := 0;
         trace := [Fetch (params "k" "q" 0); Sleep 5;
                   Fetch (params "k" "q" 0); Sleep 1;
                   Fetch (params "k" "q" 1)] |}.
Proof. vm_compute. reflexivity. Qed.

(** Four pages that are all given up: the counter ends at 4 and the run
    still completes normally. *)
Example abandoned_pages_do_not_stop_the_run :
  exists s,
    steps always_disconnected "k" "q" 4 1 16 (init 4) = Returned Completed s /\
    consecutive_errors s = 4 /\
    results s = [] /\
    length (trace s) = 20.
Proof. eexists. repeat split; vm_compute; reflexivity. Qed.

(** Three generic errors in a row stop the run on the third. *)
Example three_generic_errors_stop :
  exists s,
    steps always_generic_error "k" "q" 5 1 3 (init 5)
    = Returned TooManyErrors s /\
    trace s = [Fetch (params "k" "q" 0); Sleep 5;
               Fetch (params "k" "q" 0); Sleep 10;
               Fetch (params "k" "q" 0)].
Proof. eexists. split; vm_compute; reflexivity. Qed.

(** Two pages of two well-formed items each. *)
Example two_good_pages_give_four_records :
  exists rows,
    search_articles always_two "k" "q" 2 1 4 = Some (Ok rows) /\
    length rows = 2 * 2 /\
    Forall2 (fun a r => normalize a = Ok r)
      (flat_map (fun _ => [article_A; article_B]) (seq 0 2)) rows.
Proof.
  apply (search_returns_every_page always_two "k" "q" 2 1
           (fun _ => ok_page [article_A; article_B])
           (fun _ => [article_A; article_B]) 2).
  - lia.
  - reflexivity.
  - intros page _. repeat split.
    repeat constructor; eexists; vm_compute; reflexivity.
  - lia.
Qed.

(** The third generic error in a row, met on the third attempt of page 0. *)
Lemma classifier_errors_witness :
  search_articles always_generic_error "k" "q" 5 1 3 = Some (Ok []).
Proof.
  destruct (classifier_errors_count_to_the_ceiling
              always_generic_error "k" "q" 5 1 2 0 2
              {| results := []; consecutive_errors := 2;
                 trace := [Fetch (params "k" "q" 0); Sleep 5;
                           Fetch (params "k" "q" 0); Sleep 10] |}
              (error_page "Internal server error"))
    as [Herr _].
  - vm_compute. reflexivity.
  - unfold max_retries. lia.
  - reflexivity.
  - destruct (Herr true generic_error) as [Hceil _].
    + vm_compute. reflexivity.
    + reflexivity.
    + apply Hceil; [unfold max_consecutive_errors; simpl; lia|lia].
Defined.

(** The CAPTCHA notice met on the first attempt of page 0. *)
Lemma captcha_retries_witness :
  exists s',
    steps captcha_then_ok "k" "q" 2 1 1 (init 2) = AtWhile 0 1 false s' /\
    trace s' = [Fetch (params "k" "q" 0); Sleep 5].
Proof.
  destruct (captcha_retries_the_same_page captcha_then_ok "k" "q" 2 1
              0 0 0 fresh (error_page "CAPTCHA required"))
    as (s' & Hs & Htr & _).
  - reflexivity.
  - reflexivity.
  - vm_compute. reflexivity.
  - unfold max_consecutive_errors. simpl. lia.
  - unfold max_retries. lia.
  - reflexivity.
  - exists s'. split; [exact Hs|exact Htr].
Defined.

(** An item holding a title and a year only. *)
Lemma normalize_defaults_witness :
  well_shaped dict_A = true /\
  exists r,
    normalize article_A = Ok r /\
    title r = VStr "A" /\
    link r = VStr "No URL available" /\
    authors r = "N/A" /\
    cited_by r = VInt 0.
Proof.
  split; [reflexivity|].
  destruct (normalize_defaults dict_A eq_refl)
    as [_ (r & Hn & Ht & Hl & _ & _ & Ha & Hc)].
  exists r. repeat split; assumption.
Defined.

(** An item without [inline_links]. *)
Lemma cited_by_witness :
  normalize article_A = Ok row_A /\
  exists d,
    article_A = VDict d /\
    cited_by row_A =
      match subdict d "inline_links" !! "cited_by" with
      | Some (VDict c) => default (VInt 0) (c !! "total")
      | _ => VInt 0
      end.
Proof.
  split; [reflexivity|].
  apply (cited_by_is_the_stored_total article_A row_A). reflexivity.
Defined.

(** A named record, a bare string and a record without a name, in an item
    whose [inline_links] is [null]: no record, hence no authors string. *)
Lemma authors_joined_witness :
  normalize (VDict dict_null_links) = Raise AttributeError /\
  (forallb author_entry_ok authors_Ada_Bob = false /\
   AttributeError = TypeError \/
   forallb author_entry_ok authors_Ada_Bob = true /\
   dict_or_absent (dict_null_links !! "inline_links") = false /\
   AttributeError = AttributeError).
Proof.
  split; [reflexivity|].
  exact (authors_joined_unless_normalize_raises
           dict_null_links pub_Ada_Bob authors_Ada_Bob
           eq_refl eq_refl ltac:(discriminate)).
Defined.

(** The same authors where nothing else is wrong, and a list with a record
    whose name is [null]. *)
Example authors_joined_runs :
  (exists r,
     normalize (VDict (<["publication_info" := VDict pub_Ada_Bob]> ∅)) = Ok r /\
     authors r = "Ada, Bob, Unknown") /\
  normalize (VDict dict_null_name) = Raise TypeError.
Proof. split; [eexists; split|]; vm_compute; reflexivity. Qed.

(** An empty page, and a page given up with the counter already at 2. *)
Lemma ceiling_witness :
  (exists s',
     step always_empty "k" "q" 1 1 (AtWhile 0 0 false fresh)
     = AtWhile 0 0 false s' /\
     consecutive_errors s' = 1 /\ results s' = []) /\
  step always_disconnected "k" "q" 4 1
    (AtWhile 0 3 false (set_consecutive_errors 2 fresh))
  = AtWhile 1 0 false (set_consecutive_errors 3 fresh).
Proof.
  destruct (ceiling_checked_only_for_classifier_errors
              always_empty "k" "q" 1 1) as (Hzero & _ & _).
  destruct (ceiling_checked_only_for_classifier_errors
              always_disconnected "k" "q" 4 1) as (_ & Hgive_up & _).
  split.
  - apply (Hzero 0 0 fresh ∅); try reflexivity. unfold max_retries. lia.
  - apply (Hgive_up 0 3 (set_consecutive_errors 2 fresh)).
    unfold max_retries. lia.
Defined.

End ConcreteRuns.

(** * Further properties of the page loop *)

Section RunInvariants.
Context `{PyRuntime}.
Variable w : World.
Variables key query : string.
Variables num_pages delay : nat.

#[local] Abbreviation step' := (step w key query num_pages delay).
#[local] Abbreviation steps' := (steps w key query num_pages delay).
#[local] Abbreviation attempt' := (attempt w key query num_pages delay).
#[local] Abbreviation search' := (search_articles w key query num_pages delay).
#[local] Abbreviation params' := (params key query).
#[local] Abbreviation init' := (init num_pages).

(** What the [except] clauses do to the state. *)
Lemma handle_effect e retry_count s :
  exists sleeps,
    results (flow_state (handle w e retry_count s)) = results s /\
    consecutive_errors (flow_state (handle w e retry_count s))
    = consecutive_errors s /\
    trace (flow_state (handle w e retry_count s)) = trace s ++ sleeps /\
    (sleeps = [] \/
     exists secs, sleeps = [Sleep secs] /\ (secs = 5 \/ secs = 10)) /\
    (forall e' s', handle w e retry_count s = Propagate e' s' ->
                   e' = KeyboardInterrupt).
Proof.
  assert (Hsecs : retry_count + 1 < max_retries ->
                  retry_delay * (retry_count + 1) = 5 \/
                  retry_delay * (retry_count + 1) = 10).
  { unfold max_retries, retry_delay. intros Hr.
    destruct retry_count as [|[|r]]; [left|right|]; simpl; lia. }
  destruct e; simpl;
    try (exists []; rewrite app_nil_r; repeat split; auto; congruence);
    (destruct (retry_count + 1 <? max_retries) eqn:Hr;
     [apply Nat.ltb_lt in Hr; unfold sleep;
      destruct (interrupted _ _ _); eexists [Sleep _]; simpl;
      (repeat split; [right; eexists; split; [reflexivity|auto]|congruence])
     |exists []; rewrite app_nil_r; simpl; repeat split; auto; congruence]).
Qed.

Lemma collect_effect items rows :
  exists added,
    fst (collect items rows) = rows ++ added /\
    Forall (fun row => exists a, a ∈ items /\ normalize a = Ok row) added.
Proof.
  revert rows. induction items as [|a items IH]; intros rows; simpl.
  - exists []. rewrite app_nil_r. split; [reflexivity|constructor].
  - destruct (normalize a) as [r|e] eqn:Ha.
    + destruct (IH (rows ++ [r])) as (added & Hc & Hall).
      exists (r :: added). rewrite Hc, <- app_assoc. split; [reflexivity|].
      constructor.
      * exists a. split; [left|exact Ha].
      * eapply Forall_impl; [exact Hall|].
        intros row (b & Hb & Hn). exists b. split; [now right|exact Hn].
    + exists []. rewrite app_nil_r. split; [reflexivity|constructor].
Qed.

(** What one pass through the loop body does to the state: it appends one
    fetch and at most one sleep to the trace, and it appends to the results
    rows that are the normal forms of items of the response it fetched, a
    response the classifier found no error in. *)
Lemma attempt_effect page retry_count s :
  exists added sleeps,
    results (flow_state (attempt' page retry_count s)) = results s ++ added /\
    trace (flow_state (attempt' page retry_count s))
    = trace s ++ Fetch (params' page) :: sleeps /\
    (sleeps = [] \/
     exists secs, sleeps = [Sleep secs] /\ backoff_or_delay delay secs) /\
    Forall (fun row =>
              exists resp items a,
                get_dict w (trace s) (params' page) = Ok resp /\
                handle_api_error resp (page + 1) = Ok (true, None) /\
                resp !! "organic_results" = Some (VList items) /\
                a ∈ items /\ normalize a = Ok row) added /\
    (forall e s', attempt' page retry_count s = Propagate e s' ->
                  e = KeyboardInterrupt).
Proof.
  assert (Hh : forall e s1,
             results s1 = results s ->
             trace s1 = trace s ++ [Fetch (params' page)] ->
             exists added sleeps,
               results (flow_state (handle w e retry_count s1))
               = results s ++ added /\
               trace (flow_state (handle w e retry_count s1))
               = trace s ++ Fetch (params' page) :: sleeps /\
               (sleeps = [] \/
                exists secs, sleeps = [Sleep secs] /\
                             backoff_or_delay delay secs) /\
               added = [] /\
               (forall e' s', handle w e retry_count s1 = Propagate e' s' ->
                              e' = KeyboardInterrupt)).
  { intros e s1 Hres Htr.
    destruct (handle_effect e retry_count s1)
      as (sleeps & Hr & _ & Ht & Hs & Hp).
    exists [], sleeps. rewrite Hr, Ht, Hres, Htr, app_nil_r, <- app_assoc.
    repeat split; auto.
    destruct Hs as [->|(secs & -> & Hsecs)]; [now left|right].
    exists secs. split; [reflexivity|]. unfold backoff_or_delay. tauto. }
  assert (Hplain : forall f,
             results (flow_state f) = results s ->
             trace (flow_state f) = trace s ++ [Fetch (params' page)] ->
             (forall e s', f <> Propagate e s') ->
             exists added sleeps,
               results (flow_state f) = results s ++ added /\
               trace (flow_state f) = trace s ++ Fetch (params' page) :: sleeps /\
               (sleeps = [] \/
                exists secs, sleeps = [Sleep secs] /\
                             backoff_or_delay delay secs) /\
               added = [] /\
               (forall e s', f = Propagate e s' -> e = KeyboardInterrupt)).
  { intros f Hres Htr Hnp. exists [], []. rewrite Hres, Htr, app_nil_r.
    repeat split; auto. intros e s' Hf. now destruct (Hnp e s'). }
  assert (Hsleep : forall secs s1 r ok,
             results s1 = results s ->
             trace s1 = trace s ++ [Fetch (params' page)] ->
             backoff_or_delay delay secs ->
             exists added sleeps,
               results (flow_state (sleep w secs s1 (Iterate r ok)))
               = results s ++ added /\
               trace (flow_state (sleep w secs s1 (Iterate r ok)))
               = trace s ++ Fetch (params' page) :: sleeps /\
               (sleeps = [] \/
                exists secs, sleeps = [Sleep secs] /\
                             backoff_or_delay delay secs) /\
               added = [] /\
               (forall e s', sleep w secs s1 (Iterate r ok) = Propagate e s' ->
                             e = KeyboardInterrupt)).
  { intros secs s1 r ok Hres Htr Hsecs. exists [], [Sleep secs].
    unfold sleep. destruct (interrupted _ _ _); simpl;
      rewrite Hres, Htr, app_nil_r, <- app_assoc;
      (repeat split; [right; eauto|congruence]). }
  assert (Hweak : forall f,
             (exists added sleeps,
                results (flow_state f) = results s ++ added /\
                trace (flow_state f) = trace s ++ Fetch (params' page) :: sleeps /\
                (sleeps = [] \/
                 exists secs, sleeps = [Sleep secs] /\
                              backoff_or_delay delay secs) /\
                added = [] /\
                (forall e s', f = Propagate e s' -> e = KeyboardInterrupt)) ->
             exists added sleeps,
               results (flow_state f) = results s ++ added /\
               trace (flow_state f) = trace s ++ Fetch (params' page) :: sleeps /\
               (sleeps = [] \/
                exists secs, sleeps = [Sleep secs] /\
                             backoff_or_delay delay secs) /\
               Forall (fun row =>
                         exists resp items a,
                           get_dict w (trace s) (params' page) = Ok resp /\
                           handle_api_error resp (page + 1) = Ok (true, None) /\
                           resp !! "organic_results" = Some (VList items) /\
                           a ∈ items /\ normalize a = Ok row) added /\
               (forall e s', f = Propagate e s' -> e = KeyboardInterrupt)).
  { intros f (added & sleeps & Hr & Ht & Hs & -> & Hp).
    exists [], sleeps. repeat split; auto. }
  unfold attempt.
  destruct (get_dict w (trace s) (params' page)) as [resp|e] eqn:Hg;
    [|apply Hweak, Hh; reflexivity].
  destruct (handle_api_error resp (page + 1)) as [[c t]|e] eqn:Hc;
    [|apply Hweak, Hh; reflexivity].
  destruct c; cbn [negb];
    [|apply Hweak, Hplain; [reflexivity..|discriminate]].
  destruct t as [tag|].
  - destruct (max_consecutive_errors <=? _);
      [apply Hweak, Hplain; [reflexivity..|discriminate]|].
    destruct (retry_count + 1 <? max_retries) eqn:Hr;
      [|apply Hweak, Hplain; [reflexivity..|discriminate]].
    apply Hweak, Hsleep; [reflexivity..|].
    apply Nat.ltb_lt in Hr. unfold max_retries, retry_delay in *.
    unfold backoff_or_delay.
    destruct retry_count as [|[|r]]; simpl; lia.
  - unfold process_organic_results.
    destruct (bool_decide _ && _);
      [|apply Hweak, Hplain; [reflexivity..|discriminate]].
    destruct (resp !! "organic_results") as [organic|] eqn:Ho;
      cbn [default from_option id];
      [|apply Hweak, Hh; reflexivity].
    destruct organic; try (apply Hweak, Hh; reflexivity).
    cbn [results set_consecutive_errors log].
    destruct (collect_effect l (results s)) as (added & Hadd & Hall).
    destruct (collect l (results s)) as [rows err]. simpl in Hadd. subst rows.
    assert (Hrows : Forall (fun row =>
                         exists resp0 items a,
                           Ok resp = Ok resp0 /\
                           handle_api_error resp0 (page + 1) = Ok (true, None) /\
                           resp0 !! "organic_results" = Some (VList items) /\
                           a ∈ items /\ normalize a = Ok row) added).
    { eapply Forall_impl; [exact Hall|]. intros row (a & Ha & Hn).
      exists resp, l, a. auto. }
    destruct err as [e|].
    + destruct (handle_effect e retry_count
                  (set_results (results s ++ added)
                     (set_consecutive_errors 0
                        (log (Fetch (params' page)) s))))
        as (sleeps & Hr & _ & Ht & Hs & Hp).
      exists added, sleeps. rewrite Hr, Ht. simpl.
      rewrite <- app_assoc. repeat split; auto.
      destruct Hs as [->|(secs & -> & Hsecs)]; [now left|right].
      exists secs. split; [reflexivity|]. unfold backoff_or_delay. tauto.
    + destruct (page <? num_pages - 1).
      * exists added, [Sleep delay]. unfold sleep.
        destruct (interrupted _ _ _); simpl; rewrite <- app_assoc;
          (repeat split; auto;
           [right; exists delay; split; [reflexivity|];
            unfold backoff_or_delay; tauto|congruence]).
      * exists added, []. simpl. repeat split; auto. discriminate.
Qed.

Lemma run_induction (P : config -> Prop) :
  P init' -> (forall c, P c -> P (step' c)) -> forall n, P (steps' n init').
Proof.
  intros H0 Hs n. induction n as [|n IH]; [exact H0|].
  rewrite (steps_succ w key query num_pages delay). now apply Hs.
Qed.

(** One step only appends, to the results and to the trace. *)
Lemma step_appends c :
  results (state_of c) `prefix_of` results (state_of (step' c)) /\
  trace (state_of c) `prefix_of` trace (state_of (step' c)).
Proof.
  destruct c as [page r ok s|why s|e s]; [|done..]. simpl.
  destruct ((r <? max_retries) && negb ok).
  - destruct (attempt_effect page r s) as (added & sleeps & Hr & Ht & _).
    destruct (attempt' page r s); simpl in *; rewrite Hr, Ht;
      split; eexists; reflexivity.
  - unfold for_next.
    destruct (_ <? num_pages); destruct ok; simpl; done.
Qed.

(** X1: along a run the records and the calls made so far are only ever
    extended: what [search_articles] holds after [n] steps is a prefix of
    what it holds after any later step. *)
Theorem results_only_grow n m :
  n <= m ->
  results (state_of (steps' n init'))
    `prefix_of` results (state_of (steps' m init')) /\
  trace (state_of (steps' n init'))
    `prefix_of` trace (state_of (steps' m init')).
Proof.
  intros Hnm. replace m with (n + (m - n)) by lia.
  rewrite (steps_plus w key query num_pages delay).
  generalize (steps' n init') as c. induction (m - n) as [|k IH]; intros c.
  - done.
  - simpl. destruct (step_appends c) as [Hr Ht], (IH (step' c)) as [Hr' Ht'].
    split; etrans; eassumption.
Qed.

Lemma fetch_starts_app tr tr' :
  fetch_starts (tr ++ tr') = fetch_starts tr ++ fetch_starts tr'.
Proof.
  induction tr as [|[p|secs] tr IH]; simpl; [reflexivity| |exact IH].
  now rewrite IH.
Qed.

Lemma fetch_starts_attempt tr page sleeps :
  (sleeps = [] \/ exists secs, sleeps = [Sleep secs] /\
                                backoff_or_delay delay secs) ->
  fetch_starts (tr ++ Fetch (params' page) :: sleeps)
  = fetch_starts tr ++ [page * 10].
Proof.
  intros Hs. rewrite fetch_starts_app. simpl.
  now destruct Hs as [->|(secs & -> & _)].
Qed.

(** The shape of the trace of a run: requests for pages up to the current
    one, in the order of the pages, and waits of 5, 10 or [delay]
    seconds. *)
Lemma trace_shape n :
  (match steps' n init' with
   | AtWhile page _ _ _ => page < num_pages
   | _ => True
   end) /\
  Forall (fun e =>
            match e with
            | Fetch p =>
                exists page,
                  page < page_bound num_pages (steps' n init') /\
                  page < num_pages /\ p = params' page
            | Sleep secs => backoff_or_delay delay secs
            end) (trace (state_of (steps' n init'))) /\
  Forall (fun st => st + 10 <= page_bound num_pages (steps' n init') * 10)
    (fetch_starts (trace (state_of (steps' n init')))) /\
  (forall i j a b,
     i <= j ->
     fetch_starts (trace (state_of (steps' n init'))) !! i = Some a ->
     fetch_starts (trace (state_of (steps' n init'))) !! j = Some b ->
     a <= b).
Proof.
  apply (run_induction (fun c =>
    (match c with
     | AtWhile page _ _ _ => page < num_pages
     | _ => True
     end) /\
    Forall (fun e =>
              match e with
              | Fetch p =>
                  exists page,
                    page < page_bound num_pages c /\
                    page < num_pages /\ p = params' page
              | Sleep secs => backoff_or_delay delay secs
              end) (trace (state_of c)) /\
    Forall (fun st => st + 10 <= page_bound num_pages c * 10)
      (fetch_starts (trace (state_of c))) /\
    (forall i j a b,
       i <= j ->
       fetch_starts (trace (state_of c)) !! i = Some a ->
       fetch_starts (trace (state_of c)) !! j = Some b ->
       a <= b))).
  - unfold init, for_next.
    destruct (0 <? num_pages) eqn:Hp; simpl;
      (split; [try apply Nat.ltb_lt; auto|]);
      (split; [constructor|split; [constructor|]]);
      intros i j a b _ Hi; now rewrite lookup_nil in Hi.
  - intros c (Hpage & Hev & Hst & Hord).
    destruct c as [page r ok s|why s|e s]; [|simpl; auto..].
    simpl in Hev, Hst, Hord.
    assert (Hmono : forall bound,
               page + 1 <= bound ->
               Forall (fun e =>
                         match e with
                         | Fetch p =>
                             exists pg, pg < bound /\ pg < num_pages /\
                                        p = params' pg
                         | Sleep secs => backoff_or_delay delay secs
                         end) (trace s) /\
               Forall (fun st => st + 10 <= bound * 10) (fetch_starts (trace s))).
    { intros bound Hb. split.
      - eapply Forall_impl; [exact Hev|].
        intros [p|secs]; [|auto]. intros (pg & Hpg & Hn & ->).
        exists pg. split; [lia|auto].
      - eapply Forall_impl; [exact Hst|]. simpl. intros st Hlt. lia. }
    simpl step.
    destruct ((r <? max_retries) && negb ok).
    + destruct (attempt_effect page r s)
        as (added & sleeps & _ & Ht & Hs & _).
      assert (Hbound : page + 1 <= page_bound num_pages
                         match attempt' page r s with
                         | Iterate r' ok' s' => AtWhile page r' ok' s'
                         | Return why s' => Returned why s'
                         | Propagate e s' => Uncaught e s'
                         end).
      { destruct (attempt' page r s); simpl; lia. }
      assert (Hstate : state_of
                         match attempt' page r s with
                         | Iterate r' ok' s' => AtWhile page r' ok' s'
                         | Return why s' => Returned why s'
                         | Propagate e s' => Uncaught e s'
                         end = flow_state (attempt' page r s)).
      { now destruct (attempt' page r s). }
      rewrite Hstate, Ht, (fetch_starts_attempt _ _ _ Hs).
      destruct (Hmono _ Hbound) as [Hev' Hst'].
      split; [now destruct (attempt' page r s)|].
      split; [|split].
      * apply Forall_app. split; [exact Hev'|].
        constructor; [exists page; split; [lia|auto]|].
        destruct Hs as [->|(secs & -> & Hsecs)];
          [constructor|constructor; [exact Hsecs|constructor]].
      * apply Forall_app. split; [exact Hst'|].
        repeat constructor. lia.
      * intros i j a b Hij Hi Hj.
        assert (Hall : Forall (fun st => st <= page * 10)
                         (fetch_starts (trace s) ++ [page * 10])).
        { apply Forall_app. split; [|repeat constructor].
          eapply Forall_impl; [exact Hst|]. simpl. intros st Hlt. lia. }
        destruct (decide (j < length (fetch_starts (trace s)))) as [Hj'|Hj'].
        -- rewrite lookup_app_l in Hi by lia.
           rewrite lookup_app_l in Hj by lia. eauto.
        -- rewrite lookup_app_r in Hj by lia.
           destruct (j - length (fetch_starts (trace s))) as [|k];
             [|now rewrite lookup_cons, lookup_nil in Hj].
           injection Hj as <-.
           eapply Forall_lookup_1 in Hi; [|exact Hall]. exact Hi.
    + assert (Hstate : state_of (for_next num_pages (page + 1)
                                   (if ok then s else bump s)) = 
                       if ok then s else bump s).
      { unfold for_next. now destruct (_ <? num_pages). }
      assert (Htr : trace (if ok then s else bump s) = trace s)
        by now destruct ok.
      rewrite Hstate, Htr.
      assert (Hbound : page + 1 <= page_bound num_pages
                         (for_next num_pages (page + 1)
                            (if ok then s else bump s))).
      { unfold for_next. destruct (_ <? num_pages); simpl; lia. }
      destruct (Hmono _ Hbound) as [Hev' Hst'].
      split; [|auto].
      unfold for_next. destruct (page + 1 <? num_pages) eqn:Hp; [|exact I].
      now apply Nat.ltb_lt.
Qed.

(** X2: every request of a run is the request for one of the requested
    pages: its offset is ten times a page number below [num_pages], its
    page size 10, its query the stripped query. *)
Theorem requests_are_for_requested_pages n p :
  Fetch p ∈ trace (state_of (steps' n init')) ->
  exists page, page < num_pages /\ p = params' page /\
               start p = page * 10 /\ num p = 10.
Proof.
  intros Hin. destruct (trace_shape n) as (_ & Hev & _).
  rewrite Forall_forall in Hev. destruct (Hev _ Hin) as (page & _ & Hp & ->).
  exists page. done.
Qed.

(** X3: the offsets of the requests of a run never decrease: once the loop
    has moved on to a page it does not ask for an earlier one again. *)
Theorem offsets_never_decrease n i j a b :
  i <= j ->
  fetch_starts (trace (state_of (steps' n init'))) !! i = Some a ->
  fetch_starts (trace (state_of (steps' n init'))) !! j = Some b ->
  a <= b.
Proof. destruct (trace_shape n) as (_ & _ & _ & Hord). apply Hord. Qed.

(** X4: every wait of a run lasts 5 or 10 seconds (the back-off before the
    second and the third attempt of a page) or [delay] seconds (between
    two pages). *)
Theorem waits_are_backoff_or_delay n secs :
  Sleep secs ∈ trace (state_of (steps' n init')) ->
  backoff_or_delay delay secs.
Proof.
  intros Hin. destruct (trace_shape n) as (_ & Hev & _).
  rewrite Forall_forall in Hev. apply (Hev _ Hin).
Qed.

(** X5: every record a run holds is the normal form of an item that the
    service returned to one of the run's own requests: the trace of the
    run contains the request, made for one of the requested pages after
    the calls [tr]; the service answered it, at that point, with a
    response in which the classifier found no error; and the item is one
    of the organic results of that response. *)
Theorem records_come_from_responses n row :
  row ∈ results (state_of (steps w key query num_pages delay n
                            (init num_pages))) ->
  exists tr later page resp items a,
    trace (state_of (steps w key query num_pages delay n (init num_pages)))
    = tr ++ Fetch (params' page) :: later /\
    page < num_pages /\
    get_dict w tr (params' page) = Ok resp /\
    handle_api_error resp (page + 1) = Ok (true, None) /\
    resp !! "organic_results" = Some (VList items) /\
    a ∈ items /\ normalize a = Ok row.
Proof.
  revert row. rewrite <- Forall_forall.
  assert (Hinv :
    (match steps' n init' with
     | AtWhile page _ _ _ => page < num_pages
     | _ => True
     end) /\
    Forall (fun row =>
              exists tr later page resp items a,
                trace (state_of (steps' n init'))
                = tr ++ Fetch (params' page) :: later /\
                page < num_pages /\
                get_dict w tr (params' page) = Ok resp /\
                handle_api_error resp (page + 1) = Ok (true, None) /\
                resp !! "organic_results" = Some (VList items) /\
                a ∈ items /\ normalize a = Ok row)
      (results (state_of (steps' n init')))); [|apply Hinv].
  apply (run_induction (fun c =>
    (match c with
     | AtWhile page _ _ _ => page < num_pages
     | _ => True
     end) /\
    Forall (fun row =>
              exists tr later page resp items a,
                trace (state_of c) = tr ++ Fetch (params' page) :: later /\
                page < num_pages /\
                get_dict w tr (params' page) = Ok resp /\
                handle_api_error resp (page + 1) = Ok (true, None) /\
                resp !! "organic_results" = Some (VList items) /\
                a ∈ items /\ normalize a = Ok row)
      (results (state_of c)))).
  - unfold init, for_next. destruct (0 <? num_pages) eqn:Hp; simpl.
    + split; [now apply Nat.ltb_lt|constructor].
    + split; [exact I|constructor].
  - intros [page r ok s|why s|e s] [Hpage Hc]; [|split; [exact I|exact Hc]..].
    simpl in Hc |- *.
    destruct ((r <? max_retries) && negb ok).
    + destruct (attempt_effect page r s)
        as (added & sleeps & Hr & Ht & _ & Ha & _).
      assert (Hstate : state_of
                         match attempt' page r s with
                         | Iterate r' ok' s' => AtWhile page r' ok' s'
                         | Return why s' => Returned why s'
                         | Propagate e s' => Uncaught e s'
                         end = flow_state (attempt' page r s)).
      { now destruct (attempt' page r s). }
      split; [now destruct (attempt' page r s)|].
      rewrite Hstate, Hr, Ht. apply Forall_app. split.
      * eapply Forall_impl; [exact Hc|].
        intros row (tr & later & pg & resp & items & a & -> & Hrest).
        exists tr, (later ++ Fetch (params' page) :: sleeps), pg, resp, items, a.
        split; [|exact Hrest]. now rewrite <- app_assoc.
      * eapply Forall_impl; [exact Ha|].
        intros row (resp & items & a & Hg & Hrest).
        exists (trace s), sleeps, page, resp, items, a. auto.
    + assert (Hstate : state_of (for_next num_pages (page + 1)
                                   (if ok then s else bump s))
                       = if ok then s else bump s).
      { unfold for_next. now destruct (_ <? num_pages). }
      rewrite Hstate. split.
      * unfold for_next. destruct (page + 1 <? num_pages) eqn:Hp; [|exact I].
        now apply Nat.ltb_lt.
      * now destruct ok.
Qed.

(** *** The budget of requests *)

Lemma fetch_count_attempt tr page sleeps :
  (sleeps = [] \/ exists secs, sleeps = [Sleep secs] /\
                                backoff_or_delay delay secs) ->
  fetch_count (tr ++ Fetch (params' page) :: sleeps) = fetch_count tr + 1.
Proof.
  intros Hs. unfold fetch_count.
  now rewrite (fetch_starts_attempt _ _ _ Hs), length_app.
Qed.

(** X7: if the service never answers with a response that is free of
    errors and has no organic results, a run makes at most three requests
    per requested page. *)
Theorem at_most_three_requests_per_page :
  (forall tr page resp,
     get_dict w tr (params' page) = Ok resp ->
     handle_api_error resp (page + 1) = Ok (true, None) ->
     truthy (default VNone (resp !! "organic_results")) = true) ->
  forall n, fetch_count (trace (state_of (steps' n init'))) <= 3 * num_pages.
Proof.
  intros Hno n.
  assert (Hinv : match steps' n init' with
                 | AtWhile page r ok s =>
                     page < num_pages /\
                     fetch_count (trace s)
                     <= 3 * page + (if ok then 3 else r) /\
                     (ok = false -> r <= 3)
                 | Returned _ s | Uncaught _ s =>
                     fetch_count (trace s) <= 3 * num_pages
                 end).
  { apply (run_induction (fun c =>
      match c with
      | AtWhile page r ok s =>
          page < num_pages /\
          fetch_count (trace s) <= 3 * page + (if ok then 3 else r) /\
          (ok = false -> r <= 3)
      | Returned _ s | Uncaught _ s =>
          fetch_count (trace s) <= 3 * num_pages
      end)).
    - unfold init, for_next. destruct (0 <? num_pages) eqn:Hp; simpl.
      + apply Nat.ltb_lt in Hp. unfold fetch_count. simpl. lia.
      + unfold fetch_count. simpl. lia.
    - intros [page r ok s|why s|e s] Hc; [|exact Hc..].
      destruct Hc as (Hpage & Hcount & Hr). simpl.
      destruct ((r <? max_retries) && negb ok) eqn:Hcond.
      + apply andb_prop in Hcond as [Hlt Hok].
        apply Nat.ltb_lt in Hlt. unfold max_retries in Hlt.
        destruct ok; [discriminate|].
        destruct (attempt_effect page r s)
          as (_ & sleeps & _ & Ht & Hs & _).
        pose proof (attempt_makes_progress w key query num_pages delay
                      Hno page r s) as Hp.
        destruct (attempt' page r s) as [r' ok' s'|why s'|e s'];
          simpl in Ht, Hp |- *; rewrite Ht, (fetch_count_attempt _ _ _ Hs);
          [|lia..].
        split; [exact Hpage|].
        destruct Hp as [->| ->]; [split; [lia|discriminate]|].
        split; [destruct ok'; lia|lia].
      + assert (Hdone : fetch_count (trace (if ok then s else bump s))
                        <= 3 * (page + 1)).
        { destruct ok; simpl; [lia|]. specialize (Hr eq_refl). lia. }
        unfold for_next. destruct (page + 1 <? num_pages) eqn:Hp.
        * apply Nat.ltb_lt in Hp. repeat split; lia.
        * lia. }
  destruct (steps' n init') as [page r ok s|why s|e s]; simpl; [|lia..].
  destruct Hinv as (Hpage & Hcount & Hr).
  destruct ok; [lia|]. specialize (Hr eq_refl). lia.
Qed.

(** *** A service that cannot be reached *)

Section Unreachable.
Hypothesis never_interrupted : forall tr secs, interrupted w tr secs = false.
Hypothesis every_fetch_fails :
  forall tr p, exists e, get_dict w tr p = Raise e /\ is_interrupt e = false.

Lemma handle_failure e retry_count s :
  is_interrupt e = false ->
  exists s',
    handle w e retry_count s = Iterate (retry_count + 1) false s' /\
    results s' = results s /\
    consecutive_errors s' = consecutive_errors s /\
    fetch_count (trace s') = fetch_count (trace s).
Proof.
  assert (Hcount : forall secs,
             fetch_count (trace (log (Sleep secs) s)) = fetch_count (trace s)).
  { intros secs. unfold fetch_count. simpl.
    now rewrite fetch_starts_app, app_nil_r. }
  intros He. destruct e; try discriminate; simpl;
    (destruct (_ <? _); [unfold sleep; rewrite never_interrupted|];
     eexists; (split; [reflexivity|]); auto).
Qed.

Lemma failed_attempt page retry_count s :
  exists s',
    attempt' page retry_count s = Iterate (retry_count + 1) false s' /\
    results s' = results s /\
    consecutive_errors s' = consecutive_errors s /\
    fetch_count (trace s') = fetch_count (trace s) + 1.
Proof.
  unfold attempt.
  destruct (every_fetch_fails (trace s) (params' page)) as (e & -> & He).
  destruct (handle_failure e retry_count (log (Fetch (params' page)) s) He)
    as (s' & Hh & Hr & Hc & Hf).
  exists s'. split; [exact Hh|]. split; [exact Hr|]. split; [exact Hc|].
  rewrite Hf. unfold fetch_count. simpl.
  rewrite fetch_starts_app, length_app. reflexivity.
Qed.

(** A page takes four steps: three attempts and the exit of the loop. *)
Lemma failed_page page s :
  exists s',
    steps' 4 (AtWhile page 0 false s) = for_next num_pages (page + 1) s' /\
    results s' = results s /\
    consecutive_errors s' = consecutive_errors s + 1 /\
    fetch_count (trace s') = fetch_count (trace s) + 3.
Proof.
  destruct (failed_attempt page 0 s) as (s1 & H1 & Hr1 & Hc1 & Hf1).
  destruct (failed_attempt page 1 s1) as (s2 & H2 & Hr2 & Hc2 & Hf2).
  destruct (failed_attempt page 2 s2) as (s3 & H3 & Hr3 & Hc3 & Hf3).
  exists (bump s3).
  change (steps' 4 ?c) with (step' (step' (step' (step' c)))).
  rewrite (step_attempt w key query num_pages delay page 0 s)
    by (unfold max_retries; lia).
  rewrite H1. simpl Nat.add.
  rewrite (step_attempt w key query num_pages delay page 1 s1)
    by (unfold max_retries; lia).
  rewrite H2. simpl Nat.add.
  rewrite (step_attempt w key query num_pages delay page 2 s2)
    by (unfold max_retries; lia).
  rewrite H3. simpl Nat.add.
  split; [reflexivity|]. simpl. repeat split; [congruence|lia|lia].
Qed.

Lemma failed_pages k :
  k <= num_pages ->
  exists s,
    steps' (4 * k) init' = for_next num_pages k s /\
    results s = [] /\
    consecutive_errors s = k /\
    fetch_count (trace s) = 3 * k.
Proof.
  induction k as [|k IH]; intros Hk.
  - exists fresh. done.
  - destruct IH as (s & Hs & Hr & Hc & Hf); [lia|].
    destruct (failed_page k s) as (s' & Hs' & Hr' & Hc' & Hf').
    exists s'. replace (4 * S k) with (4 * k + 4) by lia.
    rewrite (steps_plus w key query num_pages delay), Hs.
    unfold for_next at 1.
    replace (k <? num_pages) with true by (symmetry; apply Nat.ltb_lt; lia).
    rewrite Hs'. replace (k + 1) with (S k) by lia.
    split; [reflexivity|]. repeat split; [congruence|lia|lia].
Qed.

End Unreachable.

(** X8: when every request fails with an exception other than an
    interrupt - the service cannot be reached - and no wait is interrupted,
    [search_articles] tries each requested page exactly three times, never
    stops for too many consecutive errors, and completes with an empty
    result: three requests per page in all, and a counter equal to the
    number of pages given up. *)
Theorem unreachable_service_is_tried_to_the_end fuel :
  (forall tr secs, interrupted w tr secs = false) ->
  (forall tr p, exists e, get_dict w tr p = Raise e /\ is_interrupt e = false) ->
  4 * num_pages <= fuel ->
  search' fuel = Some (Ok []) /\
  exists s,
    steps' fuel init' = Returned Completed s /\
    fetch_count (trace s) = 3 * num_pages /\
    consecutive_errors s = num_pages.
Proof.
  intros Hq Hf Hfuel.
  destruct (failed_pages Hq Hf num_pages) as (s & Hs & Hr & Hc & Hcount); [lia|].
  unfold for_next in Hs. rewrite Nat.ltb_irrefl in Hs.
  destruct (returned_for_good w key query num_pages delay _ _ _ fuel Hs Hfuel)
    as [Hsteps Hsearch].
  rewrite Hr in Hsearch. split; [exact Hsearch|]. now exists s.
Qed.

(** *** A page with a malformed item *)

Lemma extract_authors_raises pub_info e :
  extract_authors pub_info = Raise e -> e = AttributeError \/ e = TypeError.
Proof.
  unfold extract_authors.
  destruct (dict_get pub_info "authors" (VList [])) as [authors_list|e0] eqn:Hg.
  - simpl. destruct authors_list; try discriminate.
    destruct (truthy (VList l)); [|discriminate].
    unfold str_join.
    assert (Hall : forall items e1, all_str items = Raise e1 -> e1 = TypeError).
    { induction items as [|v items IH]; simpl; [discriminate|].
      intros e1. destruct v; try (now intros [= <-]).
      destruct (all_str items) as [strs|e2]; simpl; [discriminate|].
      intros [= <-]. now apply IH. }
    destruct (all_str (author_item <$> l)) as [strs|e1] eqn:Hs; simpl;
      [discriminate|].
    intros [= <-]. right. now apply (Hall _ _ Hs).
  - destruct pub_info; simpl in Hg; try discriminate;
      injection Hg as <-; simpl; intros [= <-]; now left.
Qed.

Lemma extract_cited_by_raises article e :
  extract_cited_by article = Raise e -> e = AttributeError.
Proof.
  unfold extract_cited_by.
  destruct article; simpl; try (now intros [= <-]).
  destruct (default (VDict ∅) (d !! "inline_links")); simpl;
    try (now intros [= <-]).
  destruct (default (VDict ∅) (d0 !! "cited_by")); simpl; discriminate.
Qed.

Lemma normalize_exceptions article e :
  normalize article = Raise e -> e = AttributeError \/ e = TypeError.
Proof.
  unfold normalize.
  destruct (safe_get_field_total article (Key "title") (VStr "Untitled"))
    as [t ->]. simpl.
  destruct (dict_get article "publication_info" (VDict ∅)) as [pub_info|e0] eqn:Hp;
    simpl.
  2:{ destruct article; simpl in Hp; try discriminate;
        injection Hp as <-; intros [= <-]; now left. }
  destruct (extract_authors pub_info) as [a|e1] eqn:Ha; simpl.
  2:{ intros [= <-]. now apply (extract_authors_raises pub_info). }
  destruct (extract_cited_by article) as [c|e2] eqn:Hc; simpl.
  2:{ intros [= <-]. left. now apply (extract_cited_by_raises article). }
  destruct (safe_get_field_total article (Key "link")
              (VStr "No URL available")) as [l ->]. simpl.
  destruct (safe_get_field_total pub_info (Key "summary") (VStr "N/A"))
    as [p ->]. simpl.
  destruct (safe_get_field_total article (Key "year") (VStr "N/A"))
    as [y ->]. simpl. discriminate.
Qed.

(** X9: [normalize] raises nothing but an [AttributeError] (something that
    is not a dict where a dict is expected) or a [TypeError] (an author
    name that is not a string); in particular never the [KeyError] that the
    first [except] clause of the page loop waits for. *)
Theorem normalize_raises_attribute_or_type_error article e :
  normalize article = Raise e -> e = AttributeError \/ e = TypeError.
Proof. apply normalize_exceptions. Qed.

Lemma collect_until_bad good bad rest rows added e :
  Forall2 (fun a row => normalize a = Ok row) good added ->
  normalize bad = Raise e ->
  collect (good ++ bad :: rest) rows = (rows ++ added, Some e).
Proof.
  intros Hgood Hbad. revert rows.
  induction Hgood as [|a row good added Ha _ IH]; intros rows; simpl.
  - now rewrite Hbad, app_nil_r.
  - rewrite Ha, IH, <- app_assoc. reflexivity.
Qed.


(** *** A stop right after a page that failed part-way *)

(** C2 (the defect): an attempt of page K that fails part-way - an item
    cannot be normalised after [rows] were appended for the items before
    it - leaves those rows in [self.results].  When the response to the
    next attempt of page K is classified with one of the tags that end the
    run (RATE_LIMIT, ACCESS_DENIED, NO_RESULTS, EMPTY_RESULTS),
    [search_articles] returns them on top of what it held before page K
    was first attempted: records of page K itself, which is not one of the
    pages 0..K-1. *)
Theorem torn_page_rows_are_returned
    n page retry_count s resp good bad rest rows e resp' c tag :
  steps w key query num_pages delay n (init num_pages)
  = AtWhile page retry_count false s ->
  retry_count + 1 < max_retries ->
  get_dict w (trace s) (params' page) = Ok resp ->
  handle_api_error resp (page + 1) = Ok (true, None) ->
  resp !! "organic_results" = Some (VList (good ++ bad :: rest)) ->
  Forall2 (fun a row => normalize a = Ok row) good rows ->
  normalize bad = Raise e ->
  interrupted w (trace s ++ [Fetch (params' page)]) retry_delay = false ->
  get_dict w (trace s ++ [Fetch (params' page); Sleep retry_delay])
    (params' page) = Ok resp' ->
  handle_api_error resp' (page + 1) = Ok (c, Some tag) ->
  stops_run tag = true ->
  forall fuel, n + 2 <= fuel ->
    search_articles w key query num_pages delay fuel
    = Some (Ok (results s ++ rows)) /\
    exists s',
      steps' fuel init' = Returned (Stopped (Some tag)) s' /\
      trace s' = trace s ++ [Fetch (params' page); Sleep retry_delay;
                             Fetch (params' page)].
Proof.
  intros Hn Hr Hg Hc Ho Hgood Hbad Hint Hg' Hc' Hstop fuel Hfuel.
  assert (Hs : steps' (S n) init'
               = AtWhile page (retry_count + 1) false
                   (log (Sleep retry_delay)
                      (set_results (results s ++ rows)
                         (set_consecutive_errors 0
                            (log (Fetch (params' page)) s))))).
  { rewrite (steps_succ w key query num_pages delay), Hn.
    rewrite (step_attempt w key query num_pages delay) by lia.
    rewrite (attempt_ok w key query num_pages delay _ _ _ _ Hg Hc).
    unfold process_organic_results. rewrite Ho.
    cbv zeta. cbn [default from_option id].
    replace (bool_decide (is_Some (Some (VList (good ++ bad :: rest)))))
      with true by (symmetry; apply bool_decide_eq_true; eauto).
    replace (truthy (VList (good ++ bad :: rest))) with true
      by (destruct good; reflexivity).
    cbn [andb]. rewrite (collect_until_bad _ _ _ _ _ _ Hgood Hbad).
    apply Nat.ltb_lt in Hr.
    destruct (normalize_exceptions _ _ Hbad) as [-> | ->];
      simpl; rewrite Hr; unfold sleep; simpl; now rewrite Hint. }
  destruct (stop_tag_returns_accumulated w key query num_pages delay
              (S n) page (retry_count + 1) _ resp' c tag Hs)
    with (fuel := fuel) as (Hsearch & s' & Hf & _ & Htr);
    [lia| |exact Hc'|exact Hstop|lia|].
  { simpl. now rewrite <- app_assoc. }
  split; [exact Hsearch|]. exists s'. split; [exact Hf|].
  rewrite Htr. simpl. now rewrite <- !app_assoc.
Qed.

(** *** Pages with an item that cannot be normalised *)

Section MalformedPages.
Variable resp : gmap string value.
Variables good rest : list value.
Variable bad : value.
Variable rows : list record.
Variable e : exn.
Hypothesis never_interrupted : forall tr secs, interrupted w tr secs = false.
Hypothesis every_page : forall tr page, get_dict w tr (params' page) = Ok resp.
Hypothesis no_error :
  forall page_num, handle_api_error resp page_num = Ok (true, None).
Hypothesis organic :
  resp !! "organic_results" = Some (VList (good ++ bad :: rest)).
Hypothesis good_items : Forall2 (fun a row => normalize a = Ok row) good rows.
Hypothesis bad_item : normalize bad = Raise e.

(** Every attempt appends the rows of the items before the malformed one
    and fails. *)
Lemma malformed_attempt page retry_count s :
  exists s',
    attempt' page retry_count s = Iterate (retry_count + 1) false s' /\
    results s' = results s ++ rows /\
    fetch_count (trace s') = fetch_count (trace s) + 1.
Proof.
  rewrite (attempt_ok w key query num_pages delay _ _ _ _
             (every_page (trace s) page) (no_error (page + 1))).
  unfold process_organic_results. rewrite organic.
  cbv zeta. cbn [default from_option id].
  replace (bool_decide (is_Some (Some (VList (good ++ bad :: rest)))))
    with true by (symmetry; apply bool_decide_eq_true; eauto).
  replace (truthy (VList (good ++ bad :: rest))) with true
    by (destruct good; reflexivity).
  cbn [andb]. rewrite (collect_until_bad _ _ _ _ _ _ good_items bad_item).
  assert (He : is_interrupt e = false)
    by (destruct (normalize_exceptions _ _ bad_item) as [-> | ->]; reflexivity).
  destruct (handle_failure never_interrupted e retry_count
              (set_results (results (set_consecutive_errors 0
                                       (log (Fetch (params' page)) s)) ++ rows)
                 (set_consecutive_errors 0 (log (Fetch (params' page)) s)))
              He) as (s' & Hh & Hres & _ & Hf).
  exists s'. split; [exact Hh|]. split; [exact Hres|].
  rewrite Hf. unfold fetch_count. simpl.
  rewrite fetch_starts_app, length_app. reflexivity.
Qed.

(** A page takes four steps: three attempts and the exit of the loop. *)
Lemma malformed_page page s :
  exists s',
    steps' 4 (AtWhile page 0 false s) = for_next num_pages (page + 1) s' /\
    results s' = results s ++ rows ++ rows ++ rows /\
    fetch_count (trace s') = fetch_count (trace s) + 3.
Proof.
  destruct (malformed_attempt page 0 s) as (s1 & H1 & Hr1 & Hf1).
  destruct (malformed_attempt page 1 s1) as (s2 & H2 & Hr2 & Hf2).
  destruct (malformed_attempt page 2 s2) as (s3 & H3 & Hr3 & Hf3).
  exists (bump s3).
  change (steps' 4 ?c) with (step' (step' (step' (step' c)))).
  rewrite (step_attempt w key query num_pages delay page 0 s)
    by (unfold max_retries; lia).
  rewrite H1. simpl Nat.add.
  rewrite (step_attempt w key query num_pages delay page 1 s1)
    by (unfold max_retries; lia).
  rewrite H2. simpl Nat.add.
  rewrite (step_attempt w key query num_pages delay page 2 s2)
    by (unfold max_retries; lia).
  rewrite H3. simpl Nat.add.
  split; [reflexivity|]. simpl. split; [|lia].
  rewrite Hr3, Hr2, Hr1, <- !app_assoc. reflexivity.
Qed.

Lemma malformed_pages k :
  k <= num_pages ->
  exists s,
    steps' (4 * k) init' = for_next num_pages k s /\
    results s = mjoin (replicate k (rows ++ rows ++ rows)) /\
    fetch_count (trace s) = 3 * k.
Proof.
  induction k as [|k IH]; intros Hk.
  - exists fresh. done.
  - destruct IH as (s & Hs & Hr & Hf); [lia|].
    destruct (malformed_page k s) as (s' & Hs' & Hr' & Hf').
    exists s'. replace (4 * S k) with (4 * k + 4) by lia.
    rewrite (steps_plus w key query num_pages delay), Hs.
    unfold for_next at 1.
    replace (k <? num_pages) with true by (symmetry; apply Nat.ltb_lt; lia).
    rewrite Hs'. replace (k + 1) with (S k) by lia.
    split; [reflexivity|]. split; [|lia].
    rewrite Hr', Hr. replace (S k) with (k + 1) by lia.
    rewrite replicate_add, join_app. simpl. now rewrite app_nil_r.
Qed.

End MalformedPages.

(** C3 (the defect): when every response is classified OK and carries the
    same N >= 1 items, one of which cannot be normalised (its
    [publication_info] is [null], say), [search_articles] over P pages
    does not return P * N records.  Each of the three attempts of a page
    appends the rows of the items before the malformed one and fails at
    it; the page is given up; and the run completes with those rows three
    times per page and no record for the malformed item or for any item
    after it - with no record at all when the malformed item comes
    first. *)
Theorem malformed_items_are_never_recorded
    resp good bad rest rows e fuel :
  (forall tr secs, interrupted w tr secs = false) ->
  (forall tr page, get_dict w tr (params' page) = Ok resp) ->
  (forall page_num, handle_api_error resp page_num = Ok (true, None)) ->
  resp !! "organic_results" = Some (VList (good ++ bad :: rest)) ->
  Forall2 (fun a row => normalize a = Ok row) good rows ->
  normalize bad = Raise e ->
  4 * num_pages <= fuel ->
  search_articles w key query num_pages delay fuel
  = Some (Ok (mjoin (replicate num_pages (rows ++ rows ++ rows)))) /\
  (good = [] ->
   search_articles w key query num_pages delay fuel = Some (Ok [])) /\
  exists s,
    steps' fuel init' = Returned Completed s /\
    fetch_count (trace s) = 3 * num_pages.
Proof.
  intros Hq Hg Hc Ho Hgood Hbad Hfuel.
  destruct (malformed_pages resp good rest bad rows e Hq Hg Hc Ho Hgood Hbad
              num_pages) as (s & Hs & Hr & Hcount); [lia|].
  unfold for_next in Hs. rewrite Nat.ltb_irrefl in Hs.
  destruct (returned_for_good w key query num_pages delay _ _ _ fuel Hs Hfuel)
    as [Hsteps Hsearch].
  rewrite Hr in Hsearch. split; [exact Hsearch|]. split; [|now exists s].
  intros ->. inversion Hgood; subst. rewrite Hsearch. f_equal. f_equal.
  clear. induction num_pages as [|k IH]; [reflexivity|]. simpl. exact IH.
Qed.

(** *** A call that is cut short *)



End RunInvariants.

(** * Further properties of the classifier and of [safe_get_field] *)

Section MoreClassifierFacts.
Context `{PyRuntime}.

(** With an [error] that is a string the classifier looks at nothing
    else. *)
Lemma handle_api_error_message results_ page_num msg :
  results_ !! "error" = Some (VStr msg) ->
  handle_api_error results_ page_num = handle_api_error (error_page msg) 1.
Proof.
  intros He. unfold handle_api_error, error_page.
  rewrite lookup_insert_eq, He. cbn [default from_option id].
  replace (bool_decide (is_Some (Some (VStr msg)))) with true
    by (symmetry; apply bool_decide_eq_true; eauto).
  reflexivity.
Qed.

(** X11: when the response carries an [error] that is a string, the
    classifier never answers "no error", and what it returns is decided by
    that message alone.  The tag is one of rate_limit, access_denied,
    captcha, no_results and generic_error; the flag tells whether that tag
    lets the run go on; and whenever the classifier returns for another
    response with the same message, whatever else that response holds and
    whatever the page number, it returns the same pair. *)
Theorem error_message_alone_decides results_ page_num msg c t :
  results_ !! "error" = Some (VStr msg) ->
  handle_api_error results_ page_num = Ok (c, t) ->
  (exists tag,
     t = Some tag /\ c = negb (stops_run tag) /\
     (tag = rate_limit \/ tag = access_denied \/ tag = captcha \/
      tag = no_results \/ tag = generic_error)) /\
  forall results' page_num' c' t',
    results' !! "error" = Some (VStr msg) ->
    handle_api_error results' page_num' = Ok (c', t') ->
    (c', t') = (c, t).
Proof.
  intros He Hr. split.
  - pose proof (handle_api_error_continue _ _ _ _ Hr) as Hc.
    rewrite (handle_api_error_message _ _ _ He) in Hr.
    revert Hr. unfold handle_api_error, error_page.
    rewrite lookup_insert_eq. cbn [default from_option id].
    replace (bool_decide (is_Some (Some (VStr msg)))) with true
      by (symmetry; apply bool_decide_eq_true; eauto).
    simpl.
    repeat (destruct (_ || _);
            [intros [= <- <-]; eexists; split; [reflexivity|];
             split; [exact Hc|tauto]|]).
    intros [= <- <-]. eexists. split; [reflexivity|]. split; [exact Hc|tauto].
  - intros results' page_num' c' t' He' Hr'.
    rewrite (handle_api_error_message _ _ _ He) in Hr.
    rewrite (handle_api_error_message _ _ _ He') in Hr'. congruence.
Qed.

(** X12: the classifier is not guarded against fields of the wrong type.
    It raises [AttributeError], before it has printed anything, when the
    [error] is not a string; and, without an [error], when
    [search_metadata] is not a dict, or - the status not being "Error" -
    when [search_information] is not a dict or its
    [organic_results_state] is not a string. *)
Theorem wrongly_typed_fields_raise results_ page_num :
  (forall v,
     results_ !! "error" = Some v -> (forall s, v <> VStr s) ->
     handle_api_error results_ page_num = Raise AttributeError) /\
  (results_ !! "error" = None ->
   dict_or_absent (results_ !! "search_metadata") = false ->
   handle_api_error results_ page_num = Raise AttributeError) /\
  (results_ !! "error" = None ->
   dict_or_absent (results_ !! "search_metadata") = true ->
   subdict results_ "search_metadata" !! "status" <> Some (VStr "Error") ->
   dict_or_absent (results_ !! "search_information") = false \/
   (exists v,
      subdict results_ "search_information" !! "organic_results_state"
      = Some v /\ forall s, v <> VStr s) ->
   handle_api_error results_ page_num = Raise AttributeError).
Proof.
  split; [|split].
  - intros v He Hv. unfold handle_api_error. rewrite He.
    replace (bool_decide (is_Some (Some v))) with true
      by (symmetry; apply bool_decide_eq_true; eauto).
    cbn [default from_option id].
    destruct v; try reflexivity. now destruct (Hv s).
  - intros He Hm. unfold handle_api_error. rewrite He.
    replace (bool_decide (is_Some None)) with false
      by (symmetry; apply bool_decide_eq_false; intros [x Hx]; discriminate).
    destruct (results_ !! "search_metadata") as [[]|]; try discriminate;
      reflexivity.
  - intros He Hm Hstatus Hinfo. unfold handle_api_error. rewrite He.
    replace (bool_decide (is_Some None)) with false
      by (symmetry; apply bool_decide_eq_false; intros [x Hx]; discriminate).
    rewrite (dict_or_absent_get _ _ Hm). cbn [dict_get mbind result_bind].
    replace (match default (VStr "Unknown")
                     (subdict results_ "search_metadata" !! "status") with
             | VStr s => String.eqb s "Error"
             | _ => false
             end) with false.
    2:{ destruct (subdict results_ "search_metadata" !! "status")
          as [[| | | |st| |]|]; try reflexivity. simpl.
        symmetry. apply String.eqb_neq. intros ->. now destruct Hstatus. }
    destruct (dict_or_absent (results_ !! "search_information")) eqn:Hi.
    + destruct Hinfo as [|(v & Hv & Hnot)]; [discriminate|].
      rewrite (dict_or_absent_get _ _ Hi). cbn [dict_get mbind result_bind].
      rewrite Hv. cbn [default from_option id].
      destruct v; try reflexivity. now destruct (Hnot s).
    + destruct (results_ !! "search_information") as [[]|]; try discriminate;
        reflexivity.
Qed.

Lemma walk_nest ks v : walk (nest ks v) ks = Ok v.
Proof.
  induction ks as [|k ks IH]; simpl; [reflexivity|].
  now rewrite lookup_insert_eq.
Qed.

(** X13: reading back along a key path.  From the nested dicts that hold
    [v] at the end of the path [ks], [safe_get_field] with that key list
    returns [v] - unless [v] is falsy ([None], [False], [0], [0.0], an
    empty string, list or dict), which the list form replaces by the
    default. *)
Theorem key_path_round_trip ks v dflt :
  safe_get_field (nest ks v) (KeyList ks) dflt
  = Ok (if truthy v then v else dflt).
Proof. now rewrite safe_get_field_path, walk_nest. Qed.

End MoreClassifierFacts.

(** * Properties of the export, the prompts and the main program *)

Lemma digit_units a b : digit a = digit b -> a mod 10 = b mod 10.
Proof.
  unfold digit. intros Hd. apply (f_equal nat_of_ascii) in Hd.
  pose proof (Nat.mod_upper_bound a 10). pose proof (Nat.mod_upper_bound b 10).
  rewrite !nat_ascii_embedding in Hd by lia. lia.
Qed.

Lemma two_digits_inj a b :
  a < 100 -> b < 100 -> two_digits a = two_digits b -> a = b.
Proof.
  intros Ha Hb. unfold two_digits. intros Hd.
  assert (Hx : digit (a / 10) = digit (b / 10)) by congruence.
  assert (Hy : digit a = digit b) by congruence.
  apply digit_units in Hx, Hy.
  pose proof (Nat.div_mod_eq a 10). pose proof (Nat.div_mod_eq b 10).
  assert (a / 10 < 10) by (apply Nat.Div0.div_lt_upper_bound; lia).
  assert (b / 10 < 10) by (apply Nat.Div0.div_lt_upper_bound; lia).
  rewrite (Nat.mod_small (a / 10)), (Nat.mod_small (b / 10)) in Hx by lia.
  lia.
Qed.

Lemma four_digits_inj a b :
  a < 10 * 1000 -> b < 10 * 1000 -> four_digits a = four_digits b -> a = b.
Proof.
  intros Ha Hb. unfold four_digits. intros Hd.
  assert (H3 : digit (a / 1000) = digit (b / 1000)) by congruence.
  assert (H2 : digit (a / 100) = digit (b / 100)) by congruence.
  assert (H1 : digit (a / 10) = digit (b / 10)) by congruence.
  assert (H0 : digit a = digit b) by congruence.
  apply digit_units in H3, H2, H1, H0.
  assert (Hsplit : forall n, n < 10 * 1000 ->
            n = 1000 * ((n / 1000) mod 10) + 100 * ((n / 100) mod 10)
                + 10 * ((n / 10) mod 10) + n mod 10).
  { intros n Hn.
    pose proof (Nat.div_mod_eq n 10) as E0.
    pose proof (Nat.div_mod_eq (n / 10) 10) as E1.
    pose proof (Nat.div_mod_eq (n / 100) 10) as E2.
    replace (n / 10 / 10) with (n / 100) in E1
      by (rewrite Nat.Div0.div_div; reflexivity).
    replace (n / 100 / 10) with (n / 1000) in E2
      by (rewrite Nat.Div0.div_div; reflexivity).
    assert (n / 1000 < 10) by (apply Nat.Div0.div_lt_upper_bound; lia).
    rewrite (Nat.mod_small (n / 1000)) by lia. lia. }
  rewrite (Hsplit a Ha), (Hsplit b Hb), H3, H2, H1, H0. reflexivity.
Qed.

(** X14: the file names [save_to_csv] makes up are told apart by the
    second: two valid timestamps with the same default file name are the
    same timestamp, so exports made in different seconds never land in
    the same file. *)
Theorem default_filename_tells_the_second t u :
  valid_datetime t -> valid_datetime u ->
  default_filename t = default_filename u -> t = u.
Proof.
  intros (Hy & Hm & Hd & Hh & Hmi & Hs) (Hy' & Hm' & Hd' & Hh' & Hmi' & Hs').
  unfold default_filename, strftime.
  destruct t as [y m d h mi s], u as [y' m' d' h' mi' s']. simpl in *.
  intros Hf.
  assert (Hparts : four_digits y = four_digits y' /\
                   two_digits m = two_digits m' /\
                   two_digits d = two_digits d' /\
                   two_digits h = two_digits h' /\
                   two_digits mi = two_digits mi' /\
                   two_digits s = two_digits s').
  { unfold four_digits, two_digits in *. cbv [String.append] in Hf.
    repeat split; congruence. }
  destruct Hparts as (Ey & Em & Ed & Eh & Emi & Es).
  apply four_digits_inj in Ey; [|lia..].
  apply two_digits_inj in Em; [|lia..].
  apply two_digits_inj in Ed; [|lia..].
  apply two_digits_inj in Eh; [|lia..].
  apply two_digits_inj in Emi; [|lia..].
  apply two_digits_inj in Es; [|lia..].
  congruence.
Qed.

Lemma save_to_csv_raises now to_csv df filename e :
  save_to_csv now to_csv df filename = Raise e -> e = KeyboardInterrupt.
Proof.
  unfold save_to_csv. destruct df as [|r df]; [discriminate|].
  destruct (to_csv _ _) as [u|[]]; try discriminate. now intros [= <-].
Qed.

Lemma save_to_csv_some now to_csv df filename f :
  save_to_csv now to_csv df filename = Ok (Some f) ->
  df <> [] /\
  f = match filename with
      | Some given => given
      | None => default_filename now
      end /\
  to_csv f df = Ok tt.
Proof.
  unfold save_to_csv. destruct df as [|r df]; [discriminate|].
  destruct (to_csv _ _) as [[]|[]] eqn:Hw; try discriminate.
  intros [= <-]. split; [discriminate|]. split; [reflexivity|exact Hw].
Qed.

(** [save_to_csv] consults the file system through the calls listed by
    [to_csv_calls] and through nothing else. *)
Lemma save_to_csv_footprint now to_csv to_csv' df filename :
  (forall f rows,
     (f, rows) ∈ to_csv_calls now df filename ->
     to_csv f rows = to_csv' f rows) ->
  save_to_csv now to_csv df filename = save_to_csv now to_csv' df filename.
Proof.
  destruct df as [|r df]; [reflexivity|]. intros Hsame.
  unfold save_to_csv. rewrite Hsame by (simpl; constructor). reflexivity.
Qed.

(** X15: [save_to_csv] tells the truth and lets no [Exception] out.  When
    it returns a file name, the frame was not empty, the name is the given
    one or else the time-stamped default, and writing exactly that frame
    under that name succeeded; an empty frame is never written; a failed
    write gives [None]; only a [KeyboardInterrupt] is raised. *)
Theorem save_to_csv_reports_the_write now to_csv df filename :
  (forall f,
     save_to_csv now to_csv df filename = Ok (Some f) ->
     df <> [] /\
     f = match filename with
         | Some given => given
         | None => default_filename now
         end /\
     to_csv f df = Ok tt) /\
  (df = [] -> save_to_csv now to_csv df filename = Ok None) /\
  (forall e,
     is_interrupt e = false ->
     (forall f rows, to_csv f rows = Raise e) ->
     save_to_csv now to_csv df filename = Ok None) /\
  (forall e,
     save_to_csv now to_csv df filename = Raise e -> e = KeyboardInterrupt).
Proof.
  split; [intros f; apply save_to_csv_some|].
  split; [now intros ->|].
  split; [|intros e; apply save_to_csv_raises].
  intros e He Hw. unfold save_to_csv. destruct df as [|r df]; [reflexivity|].
  rewrite Hw. now destruct e.
Qed.

Section PromptFacts.
Context `{PyRuntime}.
Variable py_int : string -> option Z.

#[local] Abbreviation read_num_pages' := (read_num_pages py_int).
#[local] Abbreviation get_user_input' := (get_user_input py_int).

Lemma read_query_spec keyboard query rest :
  read_query keyboard = Ok (query, rest) ->
  query <> "" /\
  exists used text,
    keyboard = used ++ Line text :: rest /\ query = str_strip text.
Proof.
  induction keyboard as [|[text|] keyboard IH]; simpl; try discriminate.
  destruct (String.eqb (str_strip text) "") eqn:Hq.
  - intros Hr. destruct (IH Hr) as (Hne & used & text' & -> & ->).
    split; [exact Hne|]. now exists (Line text :: used), text'.
  - intros [= <- <-]. apply String.eqb_neq in Hq. split; [exact Hq|].
    now exists [], text.
Qed.

Lemma read_query_more keyboard query rest more :
  read_query keyboard = Ok (query, rest) ->
  read_query (keyboard ++ more) = Ok (query, rest ++ more).
Proof.
  induction keyboard as [|[text|] keyboard IH]; simpl; try discriminate.
  destruct (String.eqb (str_strip text) ""); [exact IH|].
  now intros [= <- <-].
Qed.

Lemma read_query_raises keyboard e :
  read_query keyboard = Raise e -> e = KeyboardInterrupt \/ e = OtherException.
Proof.
  induction keyboard as [|[text|] keyboard IH]; simpl.
  - intros [= <-]. now right.
  - destruct (String.eqb (str_strip text) ""); [exact IH|discriminate].
  - intros [= <-]. now left.
Qed.

(** What [read_num_pages] returns: at least one page; the lines it used;
    and for more than ten pages a number followed by a "y". *)
Lemma read_num_pages_spec keyboard :
  forall n rest,
    read_num_pages' keyboard = Ok (n, rest) ->
    (1 <= n)%Z /\
    exists used,
      keyboard = used ++ rest /\
      ((10 < n)%Z ->
       exists before text answer,
         used = before ++ [Line text; Line answer] /\
         py_int (str_strip text) = Some n /\
         str_lower (str_strip answer) = "y").
Proof.
  remember (length keyboard) as len eqn:Hlen. revert keyboard Hlen.
  induction len as [len IH] using lt_wf_ind. intros keyboard Hlen n rest.
  destruct keyboard as [|[text|] keyboard]; simpl; try discriminate.
  assert (Hrec : forall kb used0,
             Line text :: keyboard = used0 ++ kb ->
             used0 <> [] ->
             read_num_pages' kb = Ok (n, rest) ->
             (1 <= n)%Z /\
             exists used,
               Line text :: keyboard = used ++ rest /\
               ((10 < n)%Z ->
                exists before text0 answer,
                  used = before ++ [Line text0; Line answer] /\
                  py_int (str_strip text0) = Some n /\
                  str_lower (str_strip answer) = "y")).
  { intros kb used0 Hsplit Hne Hr.
    assert (Hshort : length kb < len).
    { subst len. rewrite Hsplit, length_app.
      destruct used0; [done|simpl; lia]. }
    destruct (IH _ Hshort kb eq_refl n rest Hr)
      as (Hn & used & -> & Hbig).
    split; [exact Hn|]. exists (used0 ++ used).
    rewrite Hsplit, <- app_assoc. split; [reflexivity|].
    intros Hgt. destruct (Hbig Hgt) as (before & t & a & -> & Hrest).
    exists (used0 ++ before), t, a. now rewrite <- app_assoc. }
  destruct (String.eqb (str_strip text) "").
  { intros [= <- <-]. split; [lia|]. exists [Line text].
    split; [reflexivity|]. lia. }
  destruct (py_int (str_strip text)) as [z|] eqn:Hint;
    [|apply (Hrec keyboard [Line text]); [reflexivity|discriminate]].
  destruct (z <? 1)%Z eqn:Hlow;
    [apply (Hrec keyboard [Line text]); [reflexivity|discriminate]|].
  apply Z.ltb_ge in Hlow.
  destruct (10 <? z)%Z eqn:Hhigh.
  - destruct keyboard as [|[answer|] keyboard]; try discriminate.
    destruct (String.eqb (str_lower (str_strip answer)) "y") eqn:Hy; simpl.
    + intros [= <- <-]. split; [exact Hlow|].
      exists [Line text; Line answer]. split; [reflexivity|].
      intros _. exists [], text, answer. apply String.eqb_eq in Hy. done.
    + apply (Hrec keyboard [Line text; Line answer]);
        [reflexivity|discriminate].
  - intros [= <- <-]. apply Z.ltb_ge in Hhigh. split; [exact Hlow|].
    exists [Line text]. split; [reflexivity|]. lia.
Qed.

Lemma read_num_pages_more keyboard :
  forall n rest more,
    read_num_pages' keyboard = Ok (n, rest) ->
    read_num_pages' (keyboard ++ more) = Ok (n, rest ++ more).
Proof.
  remember (length keyboard) as len eqn:Hlen. revert keyboard Hlen.
  induction len as [len IH] using lt_wf_ind. intros keyboard Hlen n rest more.
  destruct keyboard as [|[text|] keyboard]; simpl; try discriminate.
  assert (Hrec : forall kb,
             length kb < len ->
             read_num_pages' kb = Ok (n, rest) ->
             read_num_pages' (kb ++ more) = Ok (n, rest ++ more)).
  { intros kb Hshort. now apply (IH _ Hshort kb eq_refl). }
  destruct (String.eqb (str_strip text) ""); [now intros [= <- <-]|].
  destruct (py_int (str_strip text)) as [z|];
    [|apply Hrec; subst len; simpl; lia].
  destruct (z <? 1)%Z; [apply Hrec; subst len; simpl; lia|].
  destruct (10 <? z)%Z; [|now intros [= <- <-]].
  destruct keyboard as [|[answer|] keyboard]; simpl; try discriminate.
  destruct (negb _); [apply Hrec; subst len; simpl; lia|].
  now intros [= <- <-].
Qed.

Lemma read_num_pages_raises keyboard :
  forall e,
    read_num_pages' keyboard = Raise e ->
    e = KeyboardInterrupt \/ e = OtherException.
Proof.
  remember (length keyboard) as len eqn:Hlen. revert keyboard Hlen.
  induction len as [len IH] using lt_wf_ind. intros keyboard Hlen e.
  destruct keyboard as [|[text|] keyboard]; simpl;
    [intros [= <-]; now right| |intros [= <-]; now left].
  assert (Hrec : forall kb,
             length kb < len ->
             read_num_pages' kb = Raise e ->
             e = KeyboardInterrupt \/ e = OtherException).
  { intros kb Hshort. now apply (IH _ Hshort kb eq_refl). }
  destruct (String.eqb (str_strip text) ""); [discriminate|].
  destruct (py_int (str_strip text)) as [z|];
    [|apply Hrec; subst len; simpl; lia].
  destruct (z <? 1)%Z; [apply Hrec; subst len; simpl; lia|].
  destruct (10 <? z)%Z; [|discriminate].
  destruct keyboard as [|[answer|] keyboard]; simpl;
    [intros [= <-]; now right| |intros [= <-]; now left].
  destruct (negb _); [apply Hrec; subst len; simpl; lia|discriminate].
Qed.

Lemma get_user_input_inv keyboard query n rest :
  get_user_input' keyboard = Ok (query, n, rest) ->
  exists mid,
    read_query keyboard = Ok (query, mid) /\
    read_num_pages' mid = Ok (n, rest).
Proof.
  unfold get_user_input.
  destruct (read_query keyboard) as [[q mid]|]; simpl; [|discriminate].
  destruct (read_num_pages' mid) as [[z rest']|] eqn:Hn; simpl;
    [|discriminate].
  intros [= <- <- <-]. now exists mid.
Qed.

Lemma get_user_input_valid keyboard query n rest :
  get_user_input' keyboard = Ok (query, n, rest) ->
  query <> "" /\ (1 <= n)%Z.
Proof.
  intros (mid & Hq & Hn)%get_user_input_inv.
  apply read_query_spec in Hq as [Hq _].
  apply read_num_pages_spec in Hn as [Hn _]. done.
Qed.

Lemma get_user_input_raises keyboard e :
  get_user_input' keyboard = Raise e ->
  e = KeyboardInterrupt \/ e = OtherException.
Proof.
  unfold get_user_input.
  destruct (read_query keyboard) as [[q mid]|e0] eqn:Hq; simpl.
  - destruct (read_num_pages' mid) as [[z rest']|e1] eqn:Hn; simpl;
      [discriminate|].
    intros [= <-]. now apply (read_num_pages_raises mid).
  - intros [= <-]. now apply (read_query_raises keyboard).
Qed.

(** X16: whatever is typed, the query [get_user_input] returns is not
    empty - it is a typed line, stripped - and the number of pages is at
    least 1 (it is 3 after a blank answer): [search_articles] is never
    asked for less than one page. *)
Theorem prompts_return_a_query_and_a_page_count keyboard query n rest :
  get_user_input py_int keyboard = Ok (query, n, rest) ->
  query <> "" /\
  (exists text, Line text ∈ keyboard /\ query = str_strip text) /\
  (1 <= n)%Z /\
  0 < Z.to_nat n.
Proof.
  intros Hg. destruct (get_user_input_valid _ _ _ _ Hg) as [Hq Hn].
  apply get_user_input_inv in Hg as (mid & Hrq & _).
  apply read_query_spec in Hrq as (_ & used & text & -> & ->).
  split; [exact Hq|]. split; [|split; [exact Hn|lia]].
  exists text. split; [|reflexivity]. set_solver.
Qed.

(** X17: more than ten pages are returned only after a confirmation: the
    last two lines used are a number that [int] reads as the page count
    and an answer that, stripped and lower-cased, is "y". *)
Theorem many_pages_need_a_yes keyboard query n rest :
  get_user_input py_int keyboard = Ok (query, n, rest) ->
  (10 < n)%Z ->
  exists before text answer,
    keyboard = before ++ Line text :: Line answer :: rest /\
    py_int (str_strip text) = Some n /\
    str_lower (str_strip answer) = "y".
Proof.
  intros (mid & Hq & Hn)%get_user_input_inv Hbig.
  apply read_query_spec in Hq as (_ & used & qtext & -> & _).
  apply read_num_pages_spec in Hn as (_ & used' & -> & Hyes).
  destruct (Hyes Hbig) as (before & text & answer & -> & Hint & Hy).
  exists (used ++ Line qtext :: before), text, answer.
  split; [|done]. rewrite <- !app_assoc. reflexivity.
Qed.

(** X18: [get_user_input] reads the keyboard from the front and looks at
    nothing beyond the lines it needs: what it leaves is a suffix of the
    keyboard, and typing more afterwards changes neither the query nor the
    page count. *)
Theorem prompts_use_a_prefix keyboard query n rest :
  get_user_input py_int keyboard = Ok (query, n, rest) ->
  (exists used, keyboard = used ++ rest /\ used <> []) /\
  forall more,
    get_user_input py_int (keyboard ++ more) = Ok (query, n, rest ++ more).
Proof.
  intros (mid & Hq & Hn)%get_user_input_inv. split.
  - apply read_query_spec in Hq as (_ & used & qtext & -> & _).
    apply read_num_pages_spec in Hn as (_ & used' & -> & _).
    exists (used ++ Line qtext :: used'). rewrite <- app_assoc.
    split; [reflexivity|]. now destruct used.
  - intros more. unfold get_user_input.
    rewrite (read_query_more _ _ _ more Hq). simpl.
    rewrite (read_num_pages_more _ _ _ more Hn). reflexivity.
Qed.


End PromptFacts.

(** * Concrete runs for the further properties *)

Section MoreConcreteRuns.
#[local] Existing Instance ascii_runtime.

(** The run of two good pages, before the second page and at its end. *)
Lemma results_only_grow_witness :
  2 <= 4 /\
  results (state_of (steps always_two "k" "q" 2 1 2 (init 2)))
    `prefix_of` results (state_of (steps always_two "k" "q" 2 1 4 (init 2))).
Proof.
  split; [lia|].
  apply (results_only_grow always_two "k" "q" 2 1 2 4). lia.
Defined.

(** The second request of the run of two good pages. *)
Lemma requests_witness :
  exists page, page < 2 /\
    params "k" "q" 1 = params "k" "q" page /\
    start (params "k" "q" 1) = page * 10 /\ num (params "k" "q" 1) = 10.
Proof.
  apply (requests_are_for_requested_pages always_two "k" "q" 2 1 4
           (params "k" "q" 1)).
  vm_compute. repeat constructor.
Defined.

(** The run that retries page 0 after a CAPTCHA notice: offsets 0, 0, 10. *)
Lemma offsets_witness :
  fetch_starts
    (trace (state_of (steps captcha_then_ok "k" "q" 2 1 5 (init 2))))
  = [0; 0; 10] /\
  0 <= 10.
Proof.
  split; [reflexivity|].
  apply (offsets_never_decrease captcha_then_ok "k" "q" 2 1 5 1 2 0 10).
  - lia.
  - reflexivity.
  - reflexivity.
Defined.

(** The back-off of that run. *)
Lemma waits_witness :
  Sleep 5 ∈ trace (state_of (steps captcha_then_ok "k" "q" 2 1 5 (init 2))) /\
  backoff_or_delay 1 5.
Proof.
  assert (Hin : Sleep 5 ∈ trace (state_of (steps captcha_then_ok "k" "q"
                                             2 1 5 (init 2))))
    by (vm_compute; repeat constructor).
  split; [exact Hin|].
  apply (waits_are_backoff_or_delay captcha_then_ok "k" "q" 2 1 5 5 Hin).
Defined.

(** The first record of the run of two good pages. *)
Lemma records_witness :
  exists tr later page resp items a,
    trace (state_of (steps always_two "k" "q" 2 1 4 (init 2)))
    = tr ++ Fetch (params "k" "q" page) :: later /\
    page < 2 /\
    get_dict always_two tr (params "k" "q" page) = Ok resp /\
    handle_api_error resp (page + 1) = Ok (true, None) /\
    resp !! "organic_results" = Some (VList items) /\
    a ∈ items /\ normalize a = Ok row_A.
Proof.
  apply (records_come_from_responses always_two "k" "q" 2 1 4 row_A).
  vm_compute. repeat constructor.
Defined.

(** Two good pages take two requests. *)
Lemma three_requests_witness :
  fetch_count (trace (state_of (steps always_two "k" "q" 2 1 4 (init 2))))
  <= 3 * 2.
Proof.
  apply (at_most_three_requests_per_page always_two "k" "q" 2 1).
  intros tr page resp [= <-] _. reflexivity.
Defined.

(** A service that refuses every connection, asked for four pages. *)
Lemma unreachable_witness :
  search_articles always_disconnected "k" "q" 4 1 16 = Some (Ok []) /\
  exists s,
    steps always_disconnected "k" "q" 4 1 16 (init 4) = Returned Completed s /\
    fetch_count (trace s) = 3 * 4 /\
    consecutive_errors s = 4.
Proof.
  apply (unreachable_service_is_tried_to_the_end
           always_disconnected "k" "q" 4 1 16).
  - reflexivity.
  - intros tr p. exists ConnectionError. split; reflexivity.
  - lia.
Defined.

(** The item whose [publication_info] is [null]. *)
Lemma normalize_raises_witness :
  normalize article_null_pub = Raise AttributeError /\
  (AttributeError = AttributeError \/ AttributeError = TypeError).
Proof.
  split; [reflexivity|].
  apply (normalize_raises_attribute_or_type_error article_null_pub).
  reflexivity.
Defined.


(** An error message next to a search status that reports success, and the
    bare error page. *)
Lemma error_message_witness :
  (exists tag,
     Some rate_limit = Some tag /\ false = negb (stops_run tag) /\
     (tag = rate_limit \/ tag = access_denied \/ tag = captcha \/
      tag = no_results \/ tag = generic_error)) /\
  forall results' page_num' c' t',
    results' !! "error" = Some (VStr "Too Many Requests") ->
    handle_api_error results' page_num' = Ok (c', t') ->
    (c', t') = (false, Some rate_limit).
Proof.
  apply (error_message_alone_decides
           (<["error" := VStr "Too Many Requests"]>
              (<["search_metadata" :=
                  VDict (<["status" := VStr "Success"]> ∅)]> ∅))
           7 "Too Many Requests" false (Some rate_limit)).
  - reflexivity.
  - vm_compute. reflexivity.
Defined.

(** An [error] that is [null], and a [search_information] that is a
    list. *)
Lemma wrongly_typed_fields_witness :
  handle_api_error (<["error" := VNone]> ∅) 1 = Raise AttributeError /\
  handle_api_error (<["search_information" := VList []]> ∅) 1
  = Raise AttributeError.
Proof.
  split.
  - destruct (wrongly_typed_fields_raise (<["error" := VNone]> ∅) 1)
      as (Herr & _ & _).
    apply (Herr VNone); [reflexivity|discriminate].
  - destruct (wrongly_typed_fields_raise
                (<["search_information" := VList []]> ∅) 1)
      as (_ & _ & Hinfo).
    apply Hinfo; [reflexivity|reflexivity|discriminate|left; reflexivity].
Defined.

(** The time stamp of the concrete host. *)
Example default_filename_of_a_tuesday :
  default_filename a_tuesday = "scholar_results_20240305_140709.csv".
Proof. reflexivity. Qed.

Lemma default_filename_witness : valid_datetime a_tuesday /\ a_tuesday = a_tuesday.
Proof.
  assert (Hv : valid_datetime a_tuesday).
  { unfold valid_datetime, a_tuesday. simpl. lia. }
  split; [exact Hv|].
  apply (default_filename_tells_the_second a_tuesday a_tuesday Hv Hv).
  reflexivity.
Defined.

(** A frame of one record, written under the default name. *)
Lemma save_to_csv_witness :
  [row_A] <> [] /\
  "scholar_results_20240305_140709.csv" = default_filename a_tuesday /\
  Ok tt = Ok (A:=unit) tt.
Proof.
  destruct (save_to_csv_reports_the_write a_tuesday (fun _ _ => Ok tt)
              [row_A] None) as (Hsome & _).
  apply (Hsome "scholar_results_20240305_140709.csv"). reflexivity.
Defined.

(** What the concrete host types: a blank line, the query, "two", "0",
    "2", and a line that is not read. *)
Example prompts_of_a_host :
  get_user_input decimal_int (keyboard_of a_host)
  = Ok ("graph theory", 2%Z, [Line "unread"]).
Proof. reflexivity. Qed.

Lemma prompts_witness :
  "graph theory" <> "" /\
  (exists text, Line text ∈ keyboard_of a_host /\
                "graph theory" = str_strip text) /\
  (1 <= 2)%Z /\ 0 < Z.to_nat 2.
Proof.
  apply (prompts_return_a_query_and_a_page_count decimal_int
           (keyboard_of a_host) "graph theory" 2%Z [Line "unread"]).
  reflexivity.
Defined.

(** Twelve pages, confirmed with " Y ". *)
Lemma many_pages_witness :
  exists before text answer,
    [Line "trees"; Line "12"; Line "n"; Line "12"; Line " Y "]
    = before ++ Line text :: Line answer :: [] /\
    decimal_int (str_strip text) = Some 12%Z /\
    str_lower (str_strip answer) = "y".
Proof.
  apply (many_pages_need_a_yes decimal_int
           [Line "trees"; Line "12"; Line "n"; Line "12"; Line " Y "]
           "trees" 12%Z []).
  - reflexivity.
  - lia.
Defined.

Lemma prompts_prefix_witness :
  get_user_input decimal_int (keyboard_of a_host ++ [CtrlC])
  = Ok ("graph theory", 2%Z, [Line "unread"] ++ [CtrlC]).
Proof.
  destruct (prompts_use_a_prefix decimal_int (keyboard_of a_host)
              "graph theory" 2%Z [Line "unread"]) as [_ Hmore].
  - reflexivity.
  - apply (Hmore [CtrlC]).
Defined.

(** The main program on the concrete host, against two good pages. *)
Example main_on_a_host :
  main decimal_int a_host always_two 4
  = Some {| exit_code := 0;
            exports := [("scholar_results_20240305_140709.csv",
                         [row_A; row_B; row_A; row_B])] |}.
Proof. vm_compute. reflexivity. Qed.


(** C2: page 0 answers first with [article_A] followed by the item whose
    [publication_info] is [null], then with a rate-limit error; the run
    returns the row of [article_A], although no page precedes page 0. *)
Lemma torn_page_witness :
  search_articles torn_then_rate_limit "k" "q" 1 1 2 = Some (Ok [row_A]).
Proof.
  apply (torn_page_rows_are_returned torn_then_rate_limit "k" "q" 1 1
           0 0 0 fresh (ok_page [article_A; article_null_pub])
           [article_A] article_null_pub [] [row_A] AttributeError
           (error_page "Rate limit exceeded") false rate_limit).
  - reflexivity.
  - unfold max_retries. lia.
  - reflexivity.
  - vm_compute. reflexivity.
  - reflexivity.
  - repeat constructor.
  - reflexivity.
  - reflexivity.
  - reflexivity.
  - vm_compute. reflexivity.
  - reflexivity.
  - lia.
Defined.

(** C3: every response carries the one item whose [publication_info] is
    [null]; two pages are asked for and no record comes back, after six
    requests. *)
Lemma malformed_items_witness :
  search_articles always_null_pub "k" "q" 2 1 8 = Some (Ok []) /\
  length (@nil record) <> 2 * length [article_null_pub].
Proof.
  split; [|discriminate].
  destruct (malformed_items_are_never_recorded always_null_pub "k" "q" 2 1
              (ok_page [article_null_pub]) [] article_null_pub [] []
              AttributeError 8) as (_ & Hnone & _).
  - reflexivity.
  - reflexivity.
  - intros page_num. vm_compute. reflexivity.
  - reflexivity.
  - constructor.
  - reflexivity.
  - lia.
  - apply Hnone. reflexivity.
Defined.


(** The interrupt that arrives during the request for page 1: the record
    of page 0 is in the state the exception leaves, and nothing is
    returned. *)
Example interrupted_request_run :
  steps interrupted_request "k" "q" 2 1 3 (init 2)
  = Uncaught KeyboardInterrupt
      {| results := [row_A];
         consecutive_errors := 0;
         trace := [Fetch (params "k" "q" 0); Sleep 1;
                   Fetch (params "k" "q" 1)] |} /\
  interrupted_at interrupted_request
    [Fetch (params "k" "q" 0); Sleep 1] (Fetch (params "k" "q" 1)) /\
  search_articles interrupted_request "k" "q" 2 1 3
  = Some (Raise KeyboardInterrupt).
Proof. repeat split; vm_compute; reflexivity. Qed.

End MoreConcreteRuns.
